(** * asgardpy.data.target: translation of source models and their
      assignment to datasets

    A shallow embedding of [asgardpy/data/target.py].  Python floats are
    IEEE-754 binary64 numbers and are embedded as Rocq's primitive floats,
    so products, quotients and comparisons round and order exactly as the
    interpreter's do.  Exceptions are values of [PyError]; a function that
    may raise returns a [Result].  Objects that the code mutates (the
    target configuration, the model objects, the dataset collection) live
    in an explicit state that survives a raised exception. *)

From Stdlib Require Import Floats Ascii String.
From stdpp Require Import base strings list.

Set Warnings "-inexact-float".
Local Open Scope string_scope.
Local Open Scope list_scope.

(** ** Python values and exceptions *)

Inductive PyError : Set :=
| TypeError
| KeyError
| IndexError
| ValueError
| AttributeError
| UnboundLocalError
| ZeroDivisionError
| OverflowError
| OSError.

Definition Result (A : Type) : Type := (PyError + A)%type.

Abbreviation Ok := (@inr PyError _).
Abbreviation Raise := (@inl PyError _).

Definition rbind {A B : Type} (c : Result A) (k : A -> Result B) : Result B :=
  match c with
  | inl e => inl e
  | inr a => k a
  end.

Notation "'try' x := c 'in' k" := (rbind c (fun x => k))
  (at level 10, x name, c at level 100, k at level 200).

(** [for x in xs: ys.append(f(x))], stopping at the first exception. *)
Fixpoint map_result {A B : Type} (f : A -> Result B) (xs : list A) : Result (list B) :=
  match xs with
  | [] => Ok []
  | x :: xs' =>
      try y := f x in
      try ys := map_result f xs' in
      Ok (y :: ys)
  end.

(** *** Strings *)

(** [x in [a, b, ...]] for strings. *)
Definition str_in (x : string) (l : list string) : bool :=
  existsb (String.eqb x) l.

(** [str.lower()] on the ASCII letters (XML attribute names are ASCII). *)
Definition lower_ascii (c : ascii) : ascii :=
  let n := nat_of_ascii c in
  if (65 <=? n)%nat && (n <=? 90)%nat then ascii_of_nat (n + 32) else c.

Fixpoint lower (s : string) : string :=
  match s with
  | EmptyString => EmptyString
  | String c s' => String (lower_ascii c) (lower s')
  end.

(** [s.replace(c, "")] for a one-character [c]. *)
Fixpoint remove_char (c : ascii) (s : string) : string :=
  match s with
  | EmptyString => EmptyString
  | String d s' =>
      if Ascii.eqb d c then remove_char c s' else String d (remove_char c s')
  end.

(** [s.replace(a, b)] for one-character [a] and [b]. *)
Fixpoint replace_char (a b : ascii) (s : string) : string :=
  match s with
  | EmptyString => EmptyString
  | String d s' =>
      String (if Ascii.eqb d a then b else d) (replace_char a b s')
  end.

(** [s.split(sep)]: the pieces between the occurrences of [sep], found from
    left to right and never overlapping.  [skip] counts the characters of a
    separator just matched that are still to be passed over; [cur] is the
    piece being read. *)
Fixpoint split_from (sep : string) (skip : nat) (cur : string) (s : string)
  : list string :=
  match s with
  | EmptyString => [cur]
  | String c s' =>
      match skip with
      | S k => split_from sep k cur s'
      | O =>
          if String.prefix sep s
          then cur :: split_from sep (String.length sep - 1) EmptyString s'
          else split_from sep 0 (cur ++ String c EmptyString) s'
      end
  end.

Definition split (sep s : string) : list string := split_from sep 0 EmptyString s.

(** [s.split(sep)[-1]]; the list a split returns is never empty. *)
Definition split_last (sep s : string) : string :=
  List.last (split sep s) EmptyString.

(** [sub in s]. *)
Fixpoint contains (sub s : string) : bool :=
  String.prefix sub s ||
  match s with
  | EmptyString => false
  | String _ s' => contains sub s'
  end.

(** [s[:-n]] for a positive [n]. *)
Definition drop_last (n : nat) (s : string) : string :=
  String.substring 0 (String.length s - n) s.

(** *** Floats *)

(** [a / b]: Python raises on a zero divisor instead of returning an
    infinity or a NaN. *)
Definition truediv (a b : float) : Result float :=
  if (b =? 0)%float then Raise ZeroDivisionError else Ok (a / b)%float.

(** [x ** 2]: [float.__pow__] raises [OverflowError] when a finite base
    gives an infinite power; NaN and the infinities pass through.  The C
    library's [pow(x, 2.0)] is taken to be the correctly rounded square. *)
Definition pow2 (x : float) : Result float :=
  let r := (x * x)%float in
  if is_finite x && is_infinity r then Raise OverflowError else Ok r.

(** The builtins [min(a, b)] and [max(a, b)]: the first argument is kept
    unless the second compares strictly below (above) it. *)
Definition py_min (a b : float) : float := if (b <? a)%float then b else a.
Definition py_max (a b : float) : float := if (a <? b)%float then b else a.

(** ** The legacy (XML) parameter record and the gammapy parameter *)

(** One [<parameter .../>] element of a source's spectrum, as [xmltodict]
    hands it over: the attributes [@name], [@value], [@scale], [@min],
    [@max], [@free] and, when the catalog has it, [@error].  The numeric
    attributes are held as the floats that [float(...)] reads from their
    text. *)
Record XmlPar : Type := {
  x_name : string;
  x_value : float;
  x_scale : float;
  x_min : float;
  x_max : float;
  x_free : string;
  x_error : option float
}.

(** The dictionary [new_par] that the translator fills and rewrites. *)
Record NewPar : Type := {
  np_name : string;
  np_value : float;
  np_scale : float;
  np_min : float;
  np_max : float;
  np_error : option float;
  np_frozen : bool;
  np_unit : string;
  np_is_norm : bool
}.

(** The [gammapy.modeling.Parameter] the translator returns, with the
    attributes it sets. *)
Record Parameter_ : Type := {
  p_name : string;
  p_value : float;
  p_unit : string;
  p_error : option float;
  p_min : float;
  p_max : float;
  p_frozen : bool;
  p_is_norm : bool
}.

Definition set_name (n : string) (np : NewPar) : NewPar :=
  {| np_name := n; np_value := np_value np; np_scale := np_scale np;
     np_min := np_min np; np_max := np_max np; np_error := np_error np;
     np_frozen := np_frozen np; np_unit := np_unit np;
     np_is_norm := np_is_norm np |}.

Definition set_unit (u : string) (np : NewPar) : NewPar :=
  {| np_name := np_name np; np_value := np_value np; np_scale := np_scale np;
     np_min := np_min np; np_max := np_max np; np_error := np_error np;
     np_frozen := np_frozen np; np_unit := u;
     np_is_norm := np_is_norm np |}.

Definition set_is_norm (b : bool) (np : NewPar) : NewPar :=
  {| np_name := np_name np; np_value := np_value np; np_scale := np_scale np;
     np_min := np_min np; np_max := np_max np; np_error := np_error np;
     np_frozen := np_frozen np; np_unit := np_unit np;
     np_is_norm := b |}.

Definition set_frozen (b : bool) (np : NewPar) : NewPar :=
  {| np_name := np_name np; np_value := np_value np; np_scale := np_scale np;
     np_min := np_min np; np_max := np_max np; np_error := np_error np;
     np_frozen := b; np_unit := np_unit np;
     np_is_norm := np_is_norm np |}.

(** Assignment of [value], [error], [min] and [max] in one step. *)
Definition set_numbers (v : float) (e : option float) (lo hi : float)
  (np : NewPar) : NewPar :=
  {| np_name := np_name np; np_value := v; np_scale := np_scale np;
     np_min := lo; np_max := hi; np_error := e;
     np_frozen := np_frozen np; np_unit := np_unit np;
     np_is_norm := np_is_norm np |}.

Definition set_value_min_max (v lo hi : float) (np : NewPar) : NewPar :=
  set_numbers v (np_error np) lo hi np.

(** ** [xml_spectral_model_to_gammapy_params] *)

Module Translator.

(** [if c: new_par = f(new_par)]. *)
Definition when (c : bool) (f : NewPar -> NewPar) (new_par : NewPar) : NewPar :=
  if c then f new_par else new_par.

(** The loop over [par.keys()], first half of a pass: every attribute but
    [@free] is copied under its lower-cased name, [@free] is turned into
    [frozen], and [unit] and [is_norm] are reset. *)
Definition copy_keys (is_target : bool) (par : XmlPar) : NewPar :=
  {| np_name := x_name par;
     np_value := x_value par;
     np_scale := x_scale par;
     np_min := x_min par;
     np_max := x_max par;
     np_error := x_error par;
     np_frozen :=
       if negb (str_in (lower (x_name par)) ["scale"; "eb"])
       then String.eqb (x_free par) "0" && negb is_target
       else String.eqb (x_free par) "0";
     np_unit := "";
     np_is_norm := false |}.

(** Second half of a pass: the [if]s on [par["@name"].lower()], in the
    order of the source. *)
Definition rename_keys (spectrum_type lname : string) (new_par : NewPar)
  : NewPar :=
  let new_par :=
    when (str_in lname ["norm"; "prefactor"; "integral"])
      (fun np => set_is_norm true (set_unit "cm-2 s-1 TeV-1" (set_name "amplitude" np)))
      new_par in
  let new_par := when (str_in lname ["scale"; "eb"]) (set_name "reference") new_par in
  let new_par := when (str_in lname ["breakvalue"]) (set_name "ebreak") new_par in
  let new_par := when (str_in lname ["lowerlimit"]) (set_name "emin") new_par in
  let new_par := when (str_in lname ["upperlimit"]) (set_name "emax") new_par in
  let new_par :=
    when (str_in lname ["cutoff"; "expfactor"])
      (fun np => set_unit "TeV-1" (set_name "lambda_" np)) new_par in
  let new_par := when (str_in lname ["index"]) (set_name "index") new_par in
  let new_par :=
    when (str_in lname ["index1"])
      (if str_in spectrum_type ["PLSuperExpCutoff"; "PLSuperExpCutoff2"]
       then set_name "index"
       else set_name "index1")
      new_par in
  let new_par := when (str_in lname ["indexs"]) (set_name "index_1") new_par in
  let new_par :=
    when (str_in lname ["index2"])
      (if String.eqb spectrum_type "PLSuperExpCutoff4"
       then set_name "index_2"
       else if str_in spectrum_type ["PLSuperExpCutoff"; "PLSuperExpCutoff2"]
       then set_name "alpha"
       else set_name "index2")
      new_par in
  let new_par := when (str_in lname ["expfactors"]) (set_name "expfactor") new_par in
  new_par.

(** The whole loop: all passes rename alike and the attributes are copied
    once each, so the loop leaves what one pass over every key does. *)
Definition read_keys (spectrum_type : string) (is_target : bool) (par : XmlPar)
  : NewPar :=
  rename_keys spectrum_type (lower (x_name par)) (copy_keys is_target par).

(** The name the translator gives a parameter. *)
Definition canonical_name (spectrum_type : string) (par : XmlPar) : string :=
  np_name (read_keys spectrum_type false par).

(** [x * float(new_par["scale"]) * c] on value, error, min and max. *)
Definition rescale (c : float) (new_par : NewPar) : NewPar :=
  let scale := np_scale new_par in
  set_numbers
    (np_value new_par * scale * c)%float
    (match np_error new_par with
     | Some e => Some (e * scale * c)%float
     | None => None
     end)
    (np_min new_par * scale * c)%float
    (np_max new_par * scale * c)%float
    new_par.

(** Energies, from MeV to TeV. *)
Definition scale_energy (new_par : NewPar) : NewPar :=
  if str_in (np_name new_par) ["reference"; "ebreak"; "emin"; "emax"]
  then rescale 1.0e-6 (set_unit "TeV" new_par)
  else new_par.

(** Amplitudes, from MeV-1 to TeV-1. *)
Definition scale_amplitude (new_par : NewPar) : NewPar :=
  if str_in (np_name new_par) ["amplitude"]
  then rescale 1.0e6 new_par
  else new_par.

(** The sign of the spectral indices. *)
Definition flip_index (keep_sign : bool) (new_par : NewPar) : NewPar :=
  if str_in (np_name new_par) ["index"; "index_1"; "index_2"; "beta"]
     && negb keep_sign
  then
    let val_ := (np_value new_par * np_scale new_par)%float in
    if (val_ <? 0)%float
    then
      let min_ := (-1 * np_min new_par * np_scale new_par)%float in
      let max_ := (-1 * np_max new_par * np_scale new_par)%float in
      set_value_min_max (-1 * val_)%float (py_min min_ max_) (py_max min_ max_)
        new_par
    else new_par
  else new_par.

(** The cutoff of [PLSuperExpCutoff], the inverse of gammapy's [lambda_]. *)
Definition invert_cutoff (new_par : NewPar) : Result NewPar :=
  let val_ := (np_value new_par * np_scale new_par)%float in
  try value := truediv 1.0e6 val_ in
  try error :=
    match np_error new_par with
    | Some e =>
        try sq := pow2 val_ in
        try q := truediv (1.0e6 * e)%float sq in
        Ok (Some q)
    | None => Ok None
    end in
  try min_ := truediv 1.0e6 (np_min new_par * np_scale new_par)%float in
  try max_ := truediv 1.0e6 (np_max new_par * np_scale new_par)%float in
  Ok (set_numbers value error (py_min min_ max_) (py_max min_ max_) new_par).

Definition scale_lambda (spectrum_type : string) (new_par : NewPar)
  : Result NewPar :=
  if str_in (np_name new_par) ["lambda_"]
  then
    try new_par :=
      if String.eqb spectrum_type "PLSuperExpCutoff"
      then invert_cutoff new_par
      else Ok new_par in
    if String.eqb spectrum_type "PLSuperExpCutoff2"
    then Ok (rescale 1.0e6 new_par)
    else Ok new_par
  else Ok new_par.

(** [alpha] of the super-exponential cutoff keeps the catalog's flag. *)
Definition freeze_alpha (spectrum_type : string) (par : XmlPar) (new_par : NewPar)
  : NewPar :=
  if String.eqb (np_name new_par) "alpha"
     && str_in spectrum_type ["PLSuperExpCutoff"; "PLSuperExpCutoff2"]
  then set_frozen (String.eqb (x_free par) "0") new_par
  else new_par.

(** [Parameter(name=..., value=...)] and the attributes set on it. *)
Definition to_Parameter (new_par : NewPar) : Parameter_ :=
  {| p_name := np_name new_par;
     p_value := np_value new_par;
     p_unit := np_unit new_par;
     p_error := np_error new_par;
     p_min := np_min new_par;
     p_max := np_max new_par;
     p_frozen := np_frozen new_par;
     p_is_norm := np_is_norm new_par |}.

(** The body of [for par in params]. *)
Definition translate_par (spectrum_type : string) (is_target keep_sign : bool)
  (par : XmlPar) : Result Parameter_ :=
  let new_par := read_keys spectrum_type is_target par in
  let new_par := scale_energy new_par in
  let new_par := scale_amplitude new_par in
  let new_par := flip_index keep_sign new_par in
  try new_par := scale_lambda spectrum_type new_par in
  let new_par := freeze_alpha spectrum_type par new_par in
  Ok (to_Parameter new_par).

(** Relations between [new_par] dictionaries, for the properties of the
    loop. *)
Definition same_numbers (par : XmlPar) (np : NewPar) : Prop :=
  np_value np = x_value par /\ np_scale np = x_scale par /\
  np_min np = x_min par /\ np_max np = x_max par /\
  np_error np = x_error par.

Definition same_frozen (b : bool) (np : NewPar) : Prop := np_frozen np = b.

Definition same_name (np np' : NewPar) : Prop := np_name np = np_name np'.

(** No step after the loop touches the name, and only [freeze_alpha]
    touches [frozen]. *)
Definition same_name_frozen (np np' : NewPar) : Prop :=
  np_name np' = np_name np /\ np_frozen np' = np_frozen np.

End Translator.

Definition xml_spectral_model_to_gammapy_params (params : list XmlPar)
  (spectrum_type : string) (is_target keep_sign : bool)
  : Result (list Parameter_) :=
  map_result (Translator.translate_par spectrum_type is_target keep_sign) params.

(** ** The target configuration and the catalog entry *)

(** Modelled from the spec: [PathType] of [asgardpy.data.base], which is
    not among the sources; the spec's "file path", a [pathlib.Path], held
    here as its normalised text. *)
Definition Path : Set := string.

(** [Path.name]: the last component. *)
Definition path_name (p : Path) : string := split_last "/" p.

(** [aux_path / rel]. *)
Definition path_join (aux_path : Path) (rel : string) : Path :=
  (aux_path ++ "/" ++ rel)%string.

Record EBLAbsorptionModel : Type := {
  ebl_filename : Path;
  ebl_reference : string;
  ebl_type : string;
  ebl_redshift : float;
  ebl_alpha_norm : float
}.

Record ModelParams : Type := {
  mp_name : string;
  mp_value : float;
  mp_unit : string;
  mp_error : float;
  mp_min : float;
  mp_max : float;
  mp_frozen : bool
}.

Record SpectralModelConfig : Type := {
  spectral_type : string;
  spectral_parameters : list ModelParams;
  ebl_abs : EBLAbsorptionModel
}.

Record SpatialModelConfig : Type := {
  spatial_type : string;
  spatial_parameters : list ModelParams
}.

Record SkyModelComponent : Type := {
  component_name : string;
  component_type : string;
  spectral : SpectralModelConfig;
  spatial : SpatialModelConfig
}.

(** Modelled from the spec: [SkyCoordConfig] of [asgardpy.data.geom], which
    is not among the sources; the spec's "sky position" of a target.  No
    function of this module reads it, and it is held as its text. *)
Record SkyCoordConfig : Type := { sky_coord : string }.

Record Target : Type := {
  source_name : string;
  sky_position : SkyCoordConfig;
  use_uniform_position : bool;
  models_file : Path;
  extended : bool;
  components : list SkyModelComponent;
  covariance : string;
  from_3d : bool
}.

(** One parameter of the spatial block of a catalog entry. *)
Record XmlSpatialPar : Type := {
  xs_name : string;
  xs_value : string
}.

(** The [spatialModel] block: [@type], [@file] when it has one, and the
    list under [parameter]. *)
Record XmlSpatialModel : Type := {
  xsm_type : string;
  xsm_file : option string;
  xsm_parameter : list XmlSpatialPar
}.

(** A source of the catalog: [@name], [spectrum/@type],
    [spectrum/parameter] and [spatialModel]. *)
Record Source : Type := {
  src_name : string;
  src_spectrum_type : string;
  src_spectrum : list XmlPar;
  src_spatialModel : XmlSpatialModel
}.

(** ** The gammapy models, written as the calls that build them *)

(** The dictionary [config_to_dict] returns. *)
Record ModelDict : Type := {
  d_type : string;
  d_parameters : list ModelParams
}.

Inductive SpectralModel : Type :=
(** [cls().from_dict({"spectral": d})], [cls] named by its tag *)
| SpectralFromDict (cls : string) (d : ModelDict)
(** [cls()] followed by [setattr(model, p.name, p)] for each [p], in order *)
| SpectralFromParams (cls : string) (ps : list Parameter_)
(** [EBLAbsorptionNormSpectralModel.read(str(filename), redshift=...)],
    with [alpha_norm.value] when it was set afterwards *)
| EBLRead (filename : Path) (redshift : float) (alpha_norm : option float)
(** [EBLAbsorptionNormSpectralModel.read_builtin(reference, redshift=...)] *)
| EBLBuiltin (reference : string) (redshift : float) (alpha_norm : option float)
(** [model1 * model2] *)
| CompoundSpectral (model1 model2 : SpectralModel)
(** [model.name = name] *)
| Named (name : string) (model : SpectralModel).

Inductive SpatialModel : Type :=
(** [cls().from_dict({"spatial": d})] *)
| SpatialFromDict (cls : string) (d : ModelDict)
(** [PointSpatialModel().from_position(SkyCoord(lon_0, lat_0,
    frame="fk5").transform_to("galactic"))] *)
| PointFromPosition (lon_0 lat_0 : string)
(** [TemplateSpatialModel(Map.read(file_path).copy(unit="sr^-1"),
    filename=file_path)] *)
| TemplateFromMap (file_path : Path)
(** [GaussianSpatialModel(lon_0=..., lat_0=..., sigma=..., frame="fk5")] *)
| GaussianFromCatalog (lon_0 lat_0 sigma : string)
(** the model after [model.freeze()] *)
| Frozen (model : SpatialModel).

(** A [SkyModel]: the models it was built from, its name and the
    [datasets_names] attribute ([None] when it was never given). *)
Record SkyModel : Type := {
  sky_spectral_model : option SpectralModel;
  sky_spatial_model : option SpatialModel;
  sky_name : string;
  sky_datasets_names : option (list string)
}.

(** What the functions ask of gammapy and of the file system: the tags the
    two registries know, the regular files, and whether a read or a
    [from_dict] raises. *)
Record Environment : Type := {
  spectral_registry : list string;
  spatial_registry : list string;
  is_file : Path -> bool;
  ebl_read_error : Path -> option PyError;
  ebl_builtin_error : string -> option PyError;
  map_read_error : Path -> option PyError;
  from_dict_error : string -> ModelDict -> option PyError;
  models_read : Path -> Result (list SkyModel)
}.

(** [REGISTRY.get_cls(tag)]: [KeyError] on an unknown tag. *)
Definition get_cls (registry : list string) (tag : string) : Result string :=
  if str_in tag registry then Ok tag else Raise KeyError.

Definition check (err : option PyError) : Result unit :=
  match err with
  | Some e => Raise e
  | None => Ok tt
  end.

(** ** Functions that rewrite objects

    A computation takes the state of the objects it may rewrite and
    returns it, rewritten or not, with a result or the exception raised:
    what was written before an exception stays written. *)

Definition Mutating (S A : Type) : Type := S -> S * Result A.

Definition ret {S A : Type} (a : A) : Mutating S A := fun s => (s, Ok a).

Definition bind {S A B : Type} (c : Mutating S A) (k : A -> Mutating S B)
  : Mutating S B :=
  fun s =>
    match c s with
    | (s', inl e) => (s', inl e)
    | (s', inr a) => k a s'
    end.

Definition lift {S A : Type} (r : Result A) : Mutating S A := fun s => (s, r).

(** The functions of the assembler may rewrite the configuration. *)
Definition Config (A : Type) : Type := Mutating Target A.

Definition read_config : Config Target := fun config => (config, Ok config).

Definition write_config (config' : Target) : Config unit :=
  fun _ => (config', Ok tt).

Notation "'run' x := c 'in' k" := (bind c (fun x => k))
  (at level 10, x name, c at level 100, k at level 200).

(** [for x in xs: acc = f(acc, x)], stopping at the first exception. *)
Fixpoint fold_result {A B : Type} (f : B -> A -> Result B) (xs : list A) (acc : B)
  : Result B :=
  match xs with
  | [] => Ok acc
  | x :: xs' =>
      try acc' := f acc x in
      fold_result f xs' acc'
  end.

(** ** Models from the configuration *)

(** [config_to_dict] reads [type] and [parameters] of either kind of model
    configuration. *)
Inductive ModelConfig : Type :=
| OfSpectral (c : SpectralModelConfig)
| OfSpatial (c : SpatialModelConfig).

Definition config_to_dict (model_config : ModelConfig) : ModelDict :=
  match model_config with
  | OfSpectral c =>
      {| d_type := spectral_type c; d_parameters := spectral_parameters c |}
  | OfSpatial c =>
      {| d_type := spatial_type c; d_parameters := spatial_parameters c |}
  end.

(** [ebl_model.reference = r] on the attenuation block of the first
    component, the object that [config.components[0].spectral.ebl_abs]
    names. *)
Definition set_reference (r : string) (config : Target) : Target :=
  match components config with
  | [] => config
  | c :: rest =>
      let e := ebl_abs (spectral c) in
      let e' :=
        {| ebl_filename := ebl_filename e; ebl_reference := r;
           ebl_type := ebl_type e; ebl_redshift := ebl_redshift e;
           ebl_alpha_norm := ebl_alpha_norm e |} in
      let sp' :=
        {| spectral_type := spectral_type (spectral c);
           spectral_parameters := spectral_parameters (spectral c);
           ebl_abs := e' |} in
      let c' :=
        {| component_name := component_name c;
           component_type := component_type c;
           spectral := sp'; spatial := spatial c |} in
      {| source_name := source_name config;
         sky_position := sky_position config;
         use_uniform_position := use_uniform_position config;
         models_file := models_file config;
         extended := extended config;
         components := c' :: rest;
         covariance := covariance config;
         from_3d := from_3d config |}
  end.

(** The name a custom EBL file gives the reference:
    [filename.name[:-8].replace("-", "_")]. *)
Definition reference_of_file (filename : Path) : string :=
  replace_char "-" "_" (drop_last 8 (path_name filename)).

Section Assembly.

Variable env : Environment.

(** The spectral model of the configuration, built the same way in both
    branches of [read_models_from_asgardpy_config]. *)
Definition spectral_from_config (c : SpectralModelConfig) : Result SpectralModel :=
  let d := config_to_dict (OfSpectral c) in
  if String.eqb (spectral_type c) "ExpCutoffLogParabolaSpectralModel"
  then
    try _ := check (from_dict_error env "ExpCutoffLogParabolaSpectralModel" d) in
    Ok (SpectralFromDict "ExpCutoffLogParabolaSpectralModel" d)
  else
    try cls := get_cls (spectral_registry env) (spectral_type c) in
    try _ := check (from_dict_error env cls d) in
    Ok (SpectralFromDict cls d).

(** The attenuation model of the block [ebl_model]: read from the custom
    file when [filename] is one, and the reference is then renamed after
    the file; read from the built-in tables by [reference] otherwise.
    Both functions of the module have this code. *)
Definition read_ebl (ebl_model : EBLAbsorptionModel) : Config SpectralModel :=
  if is_file env (ebl_filename ebl_model)
  then
    run _ := lift (check (ebl_read_error env (ebl_filename ebl_model))) in
    run config := read_config in
    run _ := write_config
               (set_reference (reference_of_file (ebl_filename ebl_model)) config) in
    ret (EBLRead (ebl_filename ebl_model) (ebl_redshift ebl_model) None)
  else
    run _ := lift (check (ebl_builtin_error env (ebl_reference ebl_model))) in
    ret (EBLBuiltin (ebl_reference ebl_model) (ebl_redshift ebl_model) None).

(** [model2.alpha_norm.value = a]. *)
Definition set_alpha_norm (a : float) (model2 : SpectralModel) : SpectralModel :=
  match model2 with
  | EBLRead f z _ => EBLRead f z (Some a)
  | EBLBuiltin r z _ => EBLBuiltin r z (Some a)
  | m => m
  end.

Definition read_models_from_asgardpy_config
  : Config (SpectralModel * option SpatialModel) :=
  run config := read_config in
  match components config with
  | [] => lift (Raise IndexError)
  | model_config :: _ =>
      run spectral_model :=
        if negb (String.eqb (ebl_reference (ebl_abs (spectral model_config))) "")
        then
          run model1 := lift (spectral_from_config (spectral model_config)) in
          let ebl_model := ebl_abs (spectral model_config) in
          run model2 := read_ebl ebl_model in
          let model2 :=
            if negb (ebl_alpha_norm ebl_model =? 0)%float
            then set_alpha_norm (ebl_alpha_norm ebl_model) model2
            else model2 in
          ret (CompoundSpectral model1 model2)
        else lift (spectral_from_config (spectral model_config)) in
      let spectral_model := Named (source_name config) spectral_model in
      run spatial_model :=
        if negb (String.eqb (spatial_type (spatial model_config)) "")
        then
          let d := config_to_dict (OfSpatial (spatial model_config)) in
          run cls := lift (get_cls (spatial_registry env)
                             (spatial_type (spatial model_config))) in
          run _ := lift (check (from_dict_error env cls d)) in
          ret (Some (SpatialFromDict cls d))
        else ret None in
      ret (spectral_model, spatial_model)
  end.

(** ** Models from the catalog *)

(** The value of the last parameter called [name], as the loops over the
    spatial parameters leave it; [None] when the variable is never bound. *)
Definition last_value (name : string) (spatial_pars : list XmlSpatialPar)
  : option string :=
  fold_left
    (fun acc par_ =>
       if String.eqb (xs_name par_) name
       then Some (xs_value par_ ++ " deg")%string
       else acc)
    spatial_pars None.

(** Reading a local variable. *)
Definition bound (v : option string) : Result string :=
  match v with
  | Some x => Ok x
  | None => Raise UnboundLocalError
  end.

Definition xml_spatial_model_to_gammapy (aux_path : Path)
  (xml_spatial_model : XmlSpatialModel) : Result SpatialModel :=
  let spatial_pars := xsm_parameter xml_spatial_model in
  if String.eqb (xsm_type xml_spatial_model) "SkyDirFunction"
  then
    try lon_0 := bound (last_value "RA" spatial_pars) in
    try lat_0 := bound (last_value "DEC" spatial_pars) in
    try _ := get_cls (spatial_registry env) "PointSpatialModel" in
    Ok (PointFromPosition lon_0 lat_0)
  else if String.eqb (xsm_type xml_spatial_model) "SpatialMap"
  then
    match xsm_file xml_spatial_model with
    | None => Raise KeyError
    | Some file =>
        let file_name := split_last "/" file in
        let file_path := path_join aux_path ("Templates/" ++ file_name)%string in
        try _ := check (map_read_error env file_path) in
        try _ := get_cls (spatial_registry env) "TemplateSpatialModel" in
        Ok (TemplateFromMap file_path)
    end
  else if String.eqb (xsm_type xml_spatial_model) "RadialGaussian"
  then
    try _ := get_cls (spatial_registry env) "GaussianSpatialModel" in
    try lon_0 := bound (last_value "RA" spatial_pars) in
    try lat_0 := bound (last_value "DEC" spatial_pars) in
    try sigma := bound (last_value "Sigma" spatial_pars) in
    Ok (GaussianFromCatalog lon_0 lat_0 sigma)
  else Raise UnboundLocalError.

(** The names without underscores and spaces. *)
Definition name_check (name : string) : string :=
  remove_char " " (remove_char "_" name).

(** One pass of [for spec in spectrum]: the class of the spectral model,
    by its tag, and the flag [ebl_atten_pl]. *)
Definition choose_class (spectrum_type raw_type : string)
  (acc : option string * bool) (spec : XmlPar) : Result (option string * bool) :=
  if negb (str_in (x_name spec) ["GalDiffModel"; "IsoDiffModel"])
  then
    let spectrum_type_final :=
      if str_in spectrum_type ["PLSuperExpCutoff"; "PLSuperExpCutoff2"]
      then "ExpCutoffPowerLawSpectralModel"
      else if String.eqb spectrum_type "PLSuperExpCutoff4"
      then "SuperExpCutoffPowerLaw4FGLDR3SpectralModel"
      else (spectrum_type ++ "SpectralModel")%string in
    try cls := get_cls (spectral_registry env) spectrum_type_final in
    if String.eqb spectrum_type "LogParabola"
    then
      if contains "EblAtten" raw_type
      then
        try cls := get_cls (spectral_registry env) "PowerLawSpectralModel" in
        Ok (Some cls, true)
      else
        try cls := get_cls (spectral_registry env) "LogParabolaSpectralModel" in
        Ok (Some cls, snd acc)
    else Ok (Some cls, snd acc)
  else Ok acc.

(** The branch [if spectral_model is None] up to the parameters: the class
    chosen by the loop, instantiated, with the translated parameters set
    on it.  [setattr] on [None] raises; with no parameter to set the model
    stays [None]. *)
Definition catalog_spectral_model (source : Source) (is_source_target : bool)
  : Result (option SpectralModel) :=
  let raw_type := src_spectrum_type source in
  let spectrum_type := split_last "EblAtten::" raw_type in
  let spectrum := src_spectrum source in
  try chosen := fold_result (choose_class spectrum_type raw_type) spectrum
                  (None, false) in
  let ebl_atten_pl := snd chosen in
  try params_list :=
    xml_spectral_model_to_gammapy_params spectrum spectrum_type
      is_source_target ebl_atten_pl in
  match fst chosen, params_list with
  | Some cls, _ => Ok (Some (SpectralFromParams cls params_list))
  | None, [] => Ok None
  | None, _ :: _ => Raise AttributeError
  end.

Definition create_source_skymodel (source : Source) (aux_path : Path)
  : Config (SkyModel * bool) :=
  run config_target := read_config in
  let source_name_check := name_check (src_name source) in
  let target_check := name_check (source_name config_target) in
  let is_source_target := String.eqb source_name_check target_check in
  let source_name_ :=
    if is_source_target then source_name config_target else src_name source in
  run spectral_model :=
    if is_source_target && negb (from_3d config_target)
    then
      run models := read_models_from_asgardpy_config in
      ret (Some (fst models))
    else ret None in
  run spectral_model :=
    match spectral_model with
    | Some _ => ret spectral_model
    | None =>
        run spectral_model := lift (catalog_spectral_model source is_source_target) in
        match components config_target with
        | [] => lift (Raise IndexError)
        | component :: _ =>
            let config_spectral := spectral component in
            (* [config_spectral.ebl_abs is not None] holds of every
               configuration: the field is not optional *)
            if is_source_target
            then
              run ebl_spectral_model := read_ebl (ebl_abs config_spectral) in
              match spectral_model with
              | Some m => ret (Some (CompoundSpectral m ebl_spectral_model))
              | None => lift (Raise TypeError)
              end
            else ret spectral_model
        end
    end in
  run spatial_model :=
    lift (xml_spatial_model_to_gammapy aux_path (src_spatialModel source)) in
  let spatial_model := Frozen spatial_model in
  ret ({| sky_spectral_model := spectral_model;
          sky_spatial_model := Some spatial_model;
          sky_name := source_name_;
          sky_datasets_names := None |},
       is_source_target).

End Assembly.

(** What a call may do to the configuration: nothing, or the renaming of
    the reference after a custom EBL file that exists. *)
Definition reference_renamed (env : Environment) (config config' : Target)
  : Prop :=
  config' = config \/
  exists c rest,
    components config = c :: rest /\
    is_file env (ebl_filename (ebl_abs (spectral c))) = true /\
    config' =
      set_reference (reference_of_file (ebl_filename (ebl_abs (spectral c))))
        config.

(** A computation that leaves the configuration as it finds it. *)
Definition pure {A : Type} (c : Config A) : Prop :=
  forall config, fst (c config) = config.

(** The parameters for which the loop of [create_source_skymodel] builds a
    model. *)
Definition is_source_parameter (spec : XmlPar) : bool :=
  negb (str_in (x_name spec) ["GalDiffModel"; "IsoDiffModel"]).

(** ** Assigning models to datasets *)

(** The model objects live in a heap and are named by their position in
    it: a collection holds references, so that a model reached through two
    collections is one object. *)
Definition loc : Set := nat.

(** A [Models] (or [DatasetModels]) collection: the references to its
    models, and the attribute [datasets_names] of the collection object
    itself.  gammapy's class declares no such attribute; an assignment to
    it creates it on the instance, as for any Python object. *)
Record Models : Type := {
  models_items : list loc;
  models_datasets_names : option (list string)
}.

(** A [Datasets] collection: the names of its datasets and the models
    attached to it.  The setter of [models] hands the models on to every
    dataset and keeps nothing else of the collection it is given. *)
Record Datasets : Type := {
  datasets_names : list string;
  datasets_models : list loc
}.

(** The objects [set_models] works on: the configuration and the dataset
    collection it is called with, and the heap of model objects. *)
Record World : Type := {
  w_config : Target;
  w_datasets : Datasets;
  w_heap : list SkyModel
}.

(** What the argument [models] may be. *)
Inductive ModelsArgument : Type :=
| ADatasetModels (ms : Models)
| AList (l : list loc)
| APath (p : Path)
(** [None], or an object of any other type *)
| AOther.

Definition read_world : Mutating World World := fun w => (w, Ok w).

Definition with_heap (heap : list SkyModel) (w : World) : World :=
  {| w_config := w_config w; w_datasets := w_datasets w; w_heap := heap |}.

Definition with_config (config : Target) (w : World) : World :=
  {| w_config := config; w_datasets := w_datasets w; w_heap := w_heap w |}.

(** A function of the assembler, run on the configuration of the world. *)
Definition on_config {A : Type} (c : Config A) : Mutating World A :=
  fun w =>
    let (config', r) := c (w_config w) in
    (with_config config' w, r).

(** A new model object. *)
Definition alloc (model : SkyModel) : Mutating World loc :=
  fun w => (with_heap (w_heap w ++ [model]) w, Ok (length (w_heap w))).

Definition alloc_all (models : list SkyModel) : Mutating World (list loc) :=
  fun w =>
    (with_heap (w_heap w ++ models) w,
     Ok (seq (length (w_heap w)) (length models))).

(** [model.datasets_names = names]. *)
Definition with_datasets_names (names : list string) (model : SkyModel)
  : SkyModel :=
  {| sky_spectral_model := sky_spectral_model model;
     sky_spatial_model := sky_spatial_model model;
     sky_name := sky_name model;
     sky_datasets_names := Some names |}.

Definition set_datasets_names (l : loc) (names : list string)
  : Mutating World unit :=
  fun w =>
    match w_heap w !! l with
    | Some model =>
        (with_heap (<[l := with_datasets_names names model]> (w_heap w)) w,
         Ok tt)
    | None => (w, Raise TypeError)
    end.

(** [datasets.models = models]. *)
Definition attach (models : Models) : Mutating World unit :=
  fun w =>
    ({| w_config := w_config w;
        w_datasets :=
          {| datasets_names := datasets_names (w_datasets w);
             datasets_models := models_items models |};
        w_heap := w_heap w |},
     Ok tt).

(** The names of the models of a collection; a reference to nothing is not
    a model. *)
Definition names_of (heap : list SkyModel) (items : list loc)
  : Result (list string) :=
  map_result
    (fun l =>
       match heap !! l with
       | Some model => Ok (sky_name model)
       | None => Raise TypeError
       end)
    items.

Fixpoint unique (names : list string) : bool :=
  match names with
  | [] => true
  | n :: names' => negb (str_in n names') && unique names'
  end.

(** [Models(models)]: a new collection of the same model objects; gammapy
    refuses two models of one name with a [ValueError]. *)
Definition Models_ (heap : list SkyModel) (items : list loc) : Result Models :=
  try names := names_of heap items in
  if unique names
  then Ok {| models_items := items; models_datasets_names := None |}
  else Raise ValueError.

(** [models[key]] for a name: the first model called [key]. *)
Fixpoint find_by_name (heap : list SkyModel) (key : string) (items : list loc)
  : option loc :=
  match items with
  | [] => None
  | l :: items' =>
      match heap !! l with
      | Some model =>
          if String.eqb (sky_name model) key then Some l
          else find_by_name heap key items'
      | None => find_by_name heap key items'
      end
  end.

(** [if x is None: x = d]. *)
Definition or_default {A : Type} (x : option A) (d : A) : A :=
  match x with
  | Some a => a
  | None => d
  end.

Section Binding.

Variable env : Environment.

(** The checks on the type of the argument [models], up to the collection
    the rest of [set_models] works on. *)
Definition resolve_models (models : ModelsArgument) : Mutating World Models :=
  match models with
  | ADatasetModels ms =>
      run w := read_world in
      lift (Models_ (w_heap w) (models_items ms))
  | AList l =>
      run w := read_world in
      lift (Models_ (w_heap w) l)
  | APath p =>
      run read := lift (models_read env p) in
      run items := alloc_all read in
      run w := read_world in
      lift (Models_ (w_heap w) items)
  | AOther =>
      run w := read_world in
      if (0 <? length (components (w_config w)))%nat
      then
        run pair := on_config (read_models_from_asgardpy_config env) in
        run w := read_world in
        run l := alloc {| sky_spectral_model := Some (fst pair);
                          sky_spatial_model := snd pair;
                          sky_name := source_name (w_config w);
                          sky_datasets_names := None |} in
        run w := read_world in
        lift (Models_ (w_heap w) [l])
      else lift (Raise TypeError)
  end.

(** [set_models(config, datasets, datasets_name_list, models,
    target_source_name)]; [config] and [datasets] are the two objects of
    the world, and the argument [extend] is not read. *)
Definition set_models (datasets_name_list : option (list string))
  (models : ModelsArgument) (target_source_name : option string)
  : Mutating World unit :=
  run models := resolve_models models in
  run w := read_world in
  let datasets_name_list :=
    or_default datasets_name_list (datasets_names (w_datasets w)) in
  let target_source_name :=
    or_default target_source_name (source_name (w_config w)) in
  run models :=
    if (1 <? length (models_items models))%nat
    then
      match find_by_name (w_heap w) target_source_name (models_items models) with
      | Some l =>
          run _ := set_datasets_names l datasets_name_list in
          ret models
      | None => lift (Raise ValueError)
      end
    else
      ret {| models_items := models_items models;
             models_datasets_names := Some datasets_name_list |} in
  run _ := attach models in
  ret tt.

End Binding.

(** The world after a call that did not reach the datasets: the dataset
    collection is the same and the heap has at most grown. *)
Definition only_grown (w w' : World) : Prop :=
  w_datasets w' = w_datasets w /\
  exists new_models, w_heap w' = w_heap w ++ new_models.

(** ** Catalog entries used as examples

    Parameters as the Fermi-LAT XML models have them. *)

Module Examples.

(** [<parameter free="0" max="2000" min="30" name="Scale" scale="1" value="1e7"/>] *)
Definition scale_par : XmlPar :=
  {| x_name := "Scale"; x_value := 1.0e7; x_scale := 1; x_min := 30;
     x_max := 2000; x_free := "0"; x_error := None |}.

(** [<parameter free="1" max="1000" min="0.001" name="Prefactor" scale="1" value="1e-6" error="1e-7"/>] *)
Definition prefactor_par : XmlPar :=
  {| x_name := "Prefactor"; x_value := 1.0e-6; x_scale := 1;
     x_min := 0.001; x_max := 1000; x_free := "1";
     x_error := Some 1.0e-7%float |}.

Definition prefactor_out_target : Parameter_ :=
  {| p_name := "amplitude"; p_value := 1; p_unit := "cm-2 s-1 TeV-1";
     p_error := Some (1.0e-7 * 1 * 1.0e6)%float;
     p_min := (0.001 * 1 * 1.0e6)%float; p_max := (1000 * 1 * 1.0e6)%float;
     p_frozen := false; p_is_norm := true |}.



(** [<parameter free="1" max="0" min="-5" name="Index" scale="-1" value="-2"/>] *)
Definition negative_index_par : XmlPar :=
  {| x_name := "Index"; x_value := -2; x_scale := -1; x_min := -5;
     x_max := 0; x_free := "1"; x_error := None |}.

Definition negative_index_out : Parameter_ :=
  {| p_name := "index"; p_value := -2; p_unit := "";
     p_error := None; p_min := -5; p_max := 0;
     p_frozen := false; p_is_norm := false |}.


(** A gammapy installation with the usual tags, one custom EBL file on
    disk, the built-in EBL tables and no template map. *)
Definition env : Environment :=
  {| spectral_registry :=
       ["PowerLawSpectralModel"; "LogParabolaSpectralModel";
        "ExpCutoffPowerLawSpectralModel";
        "SuperExpCutoffPowerLaw4FGLDR3SpectralModel";
        "BrokenPowerLawSpectralModel"];
     spatial_registry :=
       ["PointSpatialModel"; "TemplateSpatialModel"; "GaussianSpatialModel"];
     is_file := fun p => String.eqb p "ebl/my-model.fits.gz";
     ebl_read_error := fun _ => None;
     ebl_builtin_error :=
       fun r => if str_in r ["dominguez"; "franceschini"; "finke"]
                then None else Some KeyError;
     map_read_error := fun _ => Some OSError;
     from_dict_error := fun _ _ => None;
     models_read := fun _ => Raise OSError |}.

Definition amplitude_config : ModelParams :=
  {| mp_name := "amplitude"; mp_value := 1.0e-12; mp_unit := "cm-2 s-1 TeV-1";
     mp_error := 0.1; mp_min := 1.0e-15; mp_max := 1.0e-9;
     mp_frozen := false |}.

Definition ebl_builtin_block : EBLAbsorptionModel :=
  {| ebl_filename := "."; ebl_reference := "dominguez";
     ebl_type := "EBLAbsorptionNormSpectralModel"; ebl_redshift := 0.4;
     ebl_alpha_norm := 1 |}.

Definition ebl_file_block : EBLAbsorptionModel :=
  {| ebl_filename := "ebl/my-model.fits.gz"; ebl_reference := "dominguez";
     ebl_type := "EBLAbsorptionNormSpectralModel"; ebl_redshift := 0.4;
     ebl_alpha_norm := 1 |}.

(** [ebl_file_block] after the reference was renamed after the file. *)
Definition ebl_renamed_block : EBLAbsorptionModel :=
  {| ebl_filename := "ebl/my-model.fits.gz"; ebl_reference := "my_model";
     ebl_type := "EBLAbsorptionNormSpectralModel"; ebl_redshift := 0.4;
     ebl_alpha_norm := 1 |}.

Definition component (ebl : EBLAbsorptionModel) : SkyModelComponent :=
  {| component_name := "4FGL J0534.5+2201i"; component_type := "SkyModel";
     spectral :=
       {| spectral_type := "LogParabolaSpectralModel";
          spectral_parameters := [amplitude_config];
          ebl_abs := ebl |};
     spatial := {| spatial_type := ""; spatial_parameters := [] |} |}.

Definition target (ebl : EBLAbsorptionModel) (from_3d_ : bool) : Target :=
  {| source_name := "4FGL J0534.5+2201i";
     sky_position := {| sky_coord := "icrs 83.633 deg 22.014 deg" |};
     use_uniform_position := true;
     models_file := ".";
     extended := false;
     components := [component ebl];
     covariance := "";
     from_3d := from_3d_ |}.

Definition point_block : XmlSpatialModel :=
  {| xsm_type := "SkyDirFunction"; xsm_file := None;
     xsm_parameter :=
       [ {| xs_name := "RA"; xs_value := "83.633" |};
         {| xs_name := "DEC"; xs_value := "22.014" |} ] |}.

(** The LogParabola parameters of an attenuated source. *)
Definition norm_par : XmlPar :=
  {| x_name := "norm"; x_value := 2; x_scale := 1.0e-10; x_min := 1.0e-5;
     x_max := 1000; x_free := "1"; x_error := None |}.

Definition alpha_par : XmlPar :=
  {| x_name := "alpha"; x_value := 2; x_scale := 1; x_min := 0;
     x_max := 5; x_free := "1"; x_error := None |}.

Definition beta_par : XmlPar :=
  {| x_name := "beta"; x_value := -0.1; x_scale := 1; x_min := -1;
     x_max := 1; x_free := "1"; x_error := None |}.

Definition eb_par : XmlPar :=
  {| x_name := "Eb"; x_value := 1000; x_scale := 1; x_min := 10;
     x_max := 1.0e6; x_free := "0"; x_error := None |}.

(** The target as the catalog names it, and another source. *)
Definition crab (spectrum_type_ : string) : Source :=
  {| src_name := "4FGL_J0534.5+2201i";
     src_spectrum_type := spectrum_type_;
     src_spectrum := [norm_par; alpha_par; beta_par; eb_par];
     src_spatialModel := point_block |}.

Definition neighbour (spectrum_type_ : string) : Source :=
  {| src_name := "4FGL J0521.7+2112";
     src_spectrum_type := spectrum_type_;
     src_spectrum := [norm_par; alpha_par; beta_par; eb_par];
     src_spatialModel := point_block |}.

(** Two model objects, and a world with two datasets. *)
Definition crab_model : SkyModel :=
  {| sky_spectral_model := None; sky_spatial_model := None;
     sky_name := "4FGL J0534.5+2201i"; sky_datasets_names := None |}.

Definition neighbour_model : SkyModel :=
  {| sky_spectral_model := None; sky_spatial_model := None;
     sky_name := "4FGL J0521.7+2112";
     sky_datasets_names := Some ["Fermi-LAT"] |}.

Definition world (config : Target) : World :=
  {| w_config := config;
     w_datasets :=
       {| datasets_names := ["Fermi-LAT"; "MAGIC"]; datasets_models := [] |};
     w_heap := [crab_model; neighbour_model] |}.

(** A configuration without components. *)
Definition empty_target : Target :=
  {| source_name := "4FGL J0534.5+2201i";
     sky_position := {| sky_coord := "icrs 83.633 deg 22.014 deg" |};
     use_uniform_position := true;
     models_file := ".";
     extended := false;
     components := [];
     covariance := "";
     from_3d := false |}.

End Examples.

(** ** The class of a catalog spectrum *)

(** The tag [spectrum_type_final] of [create_source_skymodel]. *)
Definition spectrum_type_final (spectrum_type : string) : string :=
  if str_in spectrum_type ["PLSuperExpCutoff"; "PLSuperExpCutoff2"]
  then "ExpCutoffPowerLawSpectralModel"
  else if String.eqb spectrum_type "PLSuperExpCutoff4"
  then "SuperExpCutoffPowerLaw4FGLDR3SpectralModel"
  else (spectrum_type ++ "SpectralModel")%string.

(** The flag [ebl_atten_pl] after the loop, when a model was built. *)
Definition attenuated_log_parabola (spectrum_type raw_type : string) : bool :=
  String.eqb spectrum_type "LogParabola" && contains "EblAtten" raw_type.

(** The tag of the class left by the loop, when a model was built. *)
Definition class_tag (spectrum_type raw_type : string) : string :=
  if String.eqb spectrum_type "LogParabola"
  then
    if contains "EblAtten" raw_type
    then "PowerLawSpectralModel"
    else "LogParabolaSpectralModel"
  else spectrum_type_final spectrum_type.

(** ** The vocabulary of the translator *)

(** The names of the catalog that the loop renames, lower-cased. *)
Definition renamed_names : list string :=
  ["norm"; "prefactor"; "integral"; "scale"; "eb"; "breakvalue";
   "lowerlimit"; "upperlimit"; "cutoff"; "expfactor"; "index"; "index1";
   "indexs"; "index2"; "expfactors"].

(** The names that the steps after the loop rescale, flip or freeze. *)
Definition treated_names : list string :=
  ["reference"; "ebreak"; "emin"; "emax"; "amplitude"; "index"; "index_1";
   "index_2"; "beta"; "lambda_"; "alpha"].

(** A parameter of the catalog with another spelling of its name. *)
Definition with_name (name : string) (par : XmlPar) : XmlPar :=
  {| x_name := name; x_value := x_value par; x_scale := x_scale par;
     x_min := x_min par; x_max := x_max par; x_free := x_free par;
     x_error := x_error par |}.

Module MoreExamples.

(** The parameters of [Examples.crab] translated as those of a LogParabola
    of another source. *)
Definition log_parabola_out : list Parameter_ :=
  Eval vm_compute in
    match
      xml_spectral_model_to_gammapy_params
        [Examples.norm_par; Examples.alpha_par; Examples.beta_par;
         Examples.eb_par] "LogParabola" false false
    with
    | inr ps => ps
    | inl _ => []
    end.

(** [<parameter free="1" max="1000" min="0" name="Cutoff" scale="1" value="0"/>] *)
Definition zero_cutoff_par : XmlPar :=
  {| x_name := "Cutoff"; x_value := 0; x_scale := 1; x_min := 0;
     x_max := 1000; x_free := "1"; x_error := None |}.

(** [<parameter free="1" max="5" min="0" name="Index" scale="-1" value="2.1"/>] *)
Definition index_par : XmlPar :=
  {| x_name := "Index"; x_value := 2.1; x_scale := -1; x_min := 0;
     x_max := 5; x_free := "1"; x_error := None |}.

(** [Examples.scale_par] translated for the target. *)
Definition scale_out : Parameter_ :=
  Eval vm_compute in
    match Translator.translate_par "PowerLaw" true false Examples.scale_par with
    | inr p => p
    | inl _ =>
        {| p_name := ""; p_value := 0; p_unit := ""; p_error := None;
           p_min := 0; p_max := 0; p_frozen := false; p_is_norm := false |}
    end.

(** An attenuation block with a custom file but no reference. *)
Definition ebl_file_no_reference : EBLAbsorptionModel :=
  {| ebl_filename := "ebl/my-model.fits.gz"; ebl_reference := "";
     ebl_type := "EBLAbsorptionNormSpectralModel"; ebl_redshift := 0.4;
     ebl_alpha_norm := 1 |}.

(** An attenuation block with a custom file, a reference no built-in
    table has, and no [alpha_norm]. *)
Definition ebl_file_unknown_reference : EBLAbsorptionModel :=
  {| ebl_filename := "ebl/my-model.fits.gz"; ebl_reference := "my-own-ebl";
     ebl_type := "EBLAbsorptionNormSpectralModel"; ebl_redshift := 0.4;
     ebl_alpha_norm := 0 |}.

(** A custom EBL file called [ebl.fits], and a file system that has it. *)
Definition ebl_short_file : EBLAbsorptionModel :=
  {| ebl_filename := "ebl.fits"; ebl_reference := "dominguez";
     ebl_type := "EBLAbsorptionNormSpectralModel"; ebl_redshift := 0.4;
     ebl_alpha_norm := 1 |}.

Definition env_short : Environment :=
  {| spectral_registry := spectral_registry Examples.env;
     spatial_registry := spatial_registry Examples.env;
     is_file := fun p => String.eqb p "ebl.fits";
     ebl_read_error := fun _ => None;
     ebl_builtin_error := ebl_builtin_error Examples.env;
     map_read_error := fun _ => Some OSError;
     from_dict_error := fun _ _ => None;
     models_read := fun _ => Raise OSError |}.

End MoreExamples.

(** ** The parameters of a spatial block *)


Module BlockExamples.

(** A diffuse source with its template, as the catalog points to it. *)
Definition map_block : XmlSpatialModel :=
  {| xsm_type := "SpatialMap";
     xsm_file := Some "$(LATEXTDIR)/Templates/LMC-Galaxy.fits";
     xsm_parameter := [ {| xs_name := "Prefactor"; xs_value := "1" |} ] |}.

(** A file system where every template can be read. *)
Definition env_maps : Environment :=
  {| spectral_registry := spectral_registry Examples.env;
     spatial_registry := spatial_registry Examples.env;
     is_file := is_file Examples.env;
     ebl_read_error := fun _ => None;
     ebl_builtin_error := ebl_builtin_error Examples.env;
     map_read_error := fun _ => None;
     from_dict_error := fun _ _ => None;
     models_read := fun _ => Raise OSError |}.




(** A second model called as the first of [Examples.world]. *)
Definition twin_world : World :=
  {| w_config := Examples.target Examples.ebl_builtin_block false;
     w_datasets :=
       {| datasets_names := ["Fermi-LAT"; "MAGIC"]; datasets_models := [] |};
     w_heap := [Examples.crab_model; Examples.crab_model] |}.

End BlockExamples.

(** * Properties *)

(** ** Results *)

Lemma Ok_inj {A : Type} (a b : A) : @eq (Result A) (Ok a) (Ok b) -> a = b.
Proof. intros H. now inversion H. Qed.

Lemma rbind_Ok {A B : Type} (c : Result A) (k : A -> Result B) (b : B) :
  rbind c k = Ok b -> exists a, c = Ok a /\ k a = Ok b.
Proof. destruct c as [e|a]; simpl; [discriminate | eauto]. Qed.

(** ** Comparison of floats *)

Section FloatOrder.

Lemma ltb_leb (a b : float) : (a <? b)%float = true -> (a <=? b)%float = true.
Proof.
  rewrite FloatAxioms.ltb_spec, FloatAxioms.leb_spec. unfold SFltb, SFleb.
  destruct (SFcompare (Prim2SF a) (Prim2SF b)) as [[ | | ]|]; congruence.
Qed.

Lemma leb_refl (a : float) : is_nan a = false -> (a <=? a)%float = true.
Proof.
  unfold is_nan. rewrite FloatAxioms.eqb_spec, FloatAxioms.leb_spec. unfold SFeqb, SFleb.
  destruct (SFcompare (Prim2SF a) (Prim2SF a)) as [[ | | ]|]; simpl; congruence.
Qed.

(** [min(a, b) <= max(a, b)] unless a NaN is involved. *)
Lemma py_min_le_py_max (a b : float) :
  is_nan a = false -> is_nan b = false ->
  (py_min a b <=? py_max a b)%float = true.
Proof.
  intros Ha Hb. unfold py_min, py_max.
  destruct (b <? a)%float eqn:Hba, (a <? b)%float eqn:Hab;
    auto using ltb_leb, leb_refl.
Qed.

(** [min] and [max] return the two arguments, in one order or the other. *)
Lemma py_min_max_cases (a b : float) :
  (py_min a b = a /\ py_max a b = b) \/
  (py_min a b = b /\ py_max a b = a) \/
  (py_min a b = a /\ py_max a b = a) \/
  (py_min a b = b /\ py_max a b = b).
Proof.
  unfold py_min, py_max.
  destruct (b <? a)%float, (a <? b)%float; auto.
Qed.

End FloatOrder.

(** ** The parameter translator *)

Module TranslatorFacts.
Import Translator.

Lemma str_in_In (x : string) (l : list string) : str_in x l = true -> In x l.
Proof.
  unfold str_in. rewrite existsb_exists. intros (y & Hy & Heq).
  apply String.eqb_eq in Heq. now subst.
Qed.

(** A property of [new_par] that every renaming keeps survives the chain. *)
Lemma when_keeps (P : NewPar -> Prop) (c : bool) (f : NewPar -> NewPar)
  (np : NewPar) :
  (forall y, P y -> P (f y)) -> P np -> P (when c f np).
Proof. intros Hf Hnp. unfold when. destruct c; auto. Qed.

Lemma when_related (R : NewPar -> NewPar -> Prop) (c : bool)
  (f : NewPar -> NewPar) (np np' : NewPar) :
  (forall y y', R y y' -> R (f y) (f y')) -> R np np' ->
  R (when c f np) (when c f np').
Proof. intros Hf Hnp. unfold when. destruct c; auto. Qed.

Ltac settle_renaming :=
  intros;
  repeat match goal with
         | |- context [if ?c then _ else _] => destruct c
         end;
  unfold same_numbers, same_frozen, same_name in *; simpl; auto.

Ltac kept_by_renaming :=
  unfold rename_keys; repeat (apply when_keeps; [ settle_renaming | ]).

Ltac related_by_renaming :=
  unfold rename_keys; repeat (apply when_related; [ settle_renaming | ]).

Lemma read_keys_numbers (spectrum_type : string) (is_target : bool)
  (par : XmlPar) :
  same_numbers par (read_keys spectrum_type is_target par).
Proof.
  unfold read_keys. kept_by_renaming.
  unfold same_numbers, copy_keys. simpl. auto.
Qed.

(** The loop fixes [frozen] from [@free], the flag of the target and the
    name in the catalog. *)
Lemma read_keys_frozen (spectrum_type : string) (is_target : bool)
  (par : XmlPar) :
  np_frozen (read_keys spectrum_type is_target par) =
  if str_in (lower (x_name par)) ["scale"; "eb"]
  then String.eqb (x_free par) "0"
  else String.eqb (x_free par) "0" && negb is_target.
Proof.
  unfold read_keys.
  change (same_frozen
            (if str_in (lower (x_name par)) ["scale"; "eb"]
             then String.eqb (x_free par) "0"
             else String.eqb (x_free par) "0" && negb is_target)
            (rename_keys spectrum_type (lower (x_name par))
               (copy_keys is_target par))).
  kept_by_renaming.
  unfold same_frozen, copy_keys, np_frozen.
  destruct (str_in (lower (x_name par)) ["scale"; "eb"]); reflexivity.
Qed.

(** The name does not depend on the flag of the target. *)
Lemma read_keys_name (spectrum_type : string) (is_target : bool)
  (par : XmlPar) :
  np_name (read_keys spectrum_type is_target par) =
  canonical_name spectrum_type par.
Proof.
  unfold canonical_name, read_keys.
  change (same_name
            (rename_keys spectrum_type (lower (x_name par))
               (copy_keys is_target par))
            (rename_keys spectrum_type (lower (x_name par))
               (copy_keys false par))).
  related_by_renaming. reflexivity.
Qed.

(** *** The steps after the loop *)

Lemma str_in_cases (x : string) (l : list string) :
  str_in x l = true -> Exists (eq x) l.
Proof.
  induction l as [|y l IH]; simpl; [discriminate|].
  destruct (String.eqb_spec x y) as [->|_]; simpl; intros H.
  - now constructor.
  - constructor 2. now apply IH.
Qed.

Ltac name_cases H :=
  apply str_in_cases in H;
  repeat match type of H with
         | Exists _ (_ :: _) => apply Exists_cons in H; destruct H as [H | H]
         | Exists _ [] => apply Exists_nil in H; destruct H
         end.




Lemma scale_energy_frame (np : NewPar) : same_name_frozen np (scale_energy np).
Proof.
  unfold scale_energy, same_name_frozen. destruct (str_in _ _); auto.
Qed.

Lemma scale_amplitude_frame (np : NewPar) :
  same_name_frozen np (scale_amplitude np).
Proof.
  unfold scale_amplitude, same_name_frozen. destruct (str_in _ _); auto.
Qed.

Lemma flip_index_frame (keep_sign : bool) (np : NewPar) :
  same_name_frozen np (flip_index keep_sign np).
Proof.
  unfold flip_index, same_name_frozen.
  destruct (_ && _); auto. destruct (_ <? _)%float; auto.
Qed.

Lemma invert_cutoff_frame (np np' : NewPar) :
  invert_cutoff np = Ok np' -> same_name_frozen np np'.
Proof.
  unfold invert_cutoff. intros H.
  repeat (apply rbind_Ok in H; destruct H as (? & _ & H)).
  apply Ok_inj in H. subst np'. split; reflexivity.
Qed.

Lemma scale_lambda_frame (spectrum_type : string) (np np' : NewPar) :
  scale_lambda spectrum_type np = Ok np' -> same_name_frozen np np'.
Proof.
  unfold scale_lambda. destruct (str_in _ _).
  - intros H. apply rbind_Ok in H. destruct H as (np1 & H1 & H).
    assert (F1 : same_name_frozen np np1).
    { destruct (String.eqb spectrum_type "PLSuperExpCutoff");
        [now apply invert_cutoff_frame|].
      apply Ok_inj in H1. subst np1. split; reflexivity. }
    destruct F1 as [F1 F2].
    destruct (String.eqb spectrum_type "PLSuperExpCutoff2");
      apply Ok_inj in H; subst np'; split; simpl; auto.
  - intros H. apply Ok_inj in H. subst np'. split; reflexivity.
Qed.

Lemma translate_par_frame (spectrum_type : string)
  (is_target keep_sign : bool) (par : XmlPar) (p : Parameter_) :
  translate_par spectrum_type is_target keep_sign par = Ok p ->
  p_name p = canonical_name spectrum_type par /\
  p_frozen p =
    if String.eqb (canonical_name spectrum_type par) "alpha"
       && str_in spectrum_type ["PLSuperExpCutoff"; "PLSuperExpCutoff2"]
    then String.eqb (x_free par) "0"
    else np_frozen (read_keys spectrum_type is_target par).
Proof.
  unfold translate_par. intros H.
  apply rbind_Ok in H. destruct H as (np4 & H4 & H).
  apply Ok_inj in H. subst p.
  apply scale_lambda_frame in H4.
  pose proof (flip_index_frame keep_sign
    (scale_amplitude (scale_energy (read_keys spectrum_type is_target par))))
    as H3.
  pose proof (scale_amplitude_frame
    (scale_energy (read_keys spectrum_type is_target par))) as H2.
  pose proof (scale_energy_frame (read_keys spectrum_type is_target par)) as H1.
  unfold same_name_frozen in *.
  destruct H1 as [N1 F1], H2 as [N2 F2], H3 as [N3 F3], H4 as [N4 F4].
  assert (N : np_name np4 = canonical_name spectrum_type par).
  { rewrite <- (read_keys_name spectrum_type is_target par). congruence. }
  assert (F : np_frozen np4 = np_frozen (read_keys spectrum_type is_target par))
    by congruence.
  unfold freeze_alpha. rewrite N.
  destruct (_ && _); simpl; auto.
Qed.

(** The translation only fails in the inversion of a cutoff. *)
Lemma translate_par_total (spectrum_type : string)
  (is_target keep_sign : bool) (par : XmlPar) :
  canonical_name spectrum_type par <> "lambda_" \/
  spectrum_type <> "PLSuperExpCutoff" ->
  exists p, translate_par spectrum_type is_target keep_sign par = Ok p.
Proof.
  intros H. unfold translate_par.
  set (np3 := flip_index _ _).
  assert (N : np_name np3 = canonical_name spectrum_type par).
  { rewrite <- (read_keys_name spectrum_type is_target par). subst np3.
    rewrite (proj1 (flip_index_frame _ _)), (proj1 (scale_amplitude_frame _)).
    apply scale_energy_frame. }
  unfold scale_lambda. rewrite N.
  destruct (str_in _ ["lambda_"]) eqn:L; simpl; [|eauto].
  destruct (String.eqb_spec spectrum_type "PLSuperExpCutoff") as [E|_].
  - destruct H as [H|H]; [|contradiction].
    name_cases L. contradiction.
  - simpl. destruct (String.eqb _ _); simpl; eauto.
Qed.

End TranslatorFacts.

Section TranslatorClaims.
Import Translator TranslatorFacts.

(** The function maps the body of its loop over the list. *)
Lemma xml_spectral_model_to_gammapy_params_each (params : list XmlPar)
  (spectrum_type : string) (is_target keep_sign : bool)
  (ps : list Parameter_) :
  xml_spectral_model_to_gammapy_params params spectrum_type is_target keep_sign
    = Ok ps <->
  Forall2 (fun par p =>
             translate_par spectrum_type is_target keep_sign par = Ok p)
    params ps.
Proof.
  unfold xml_spectral_model_to_gammapy_params.
  revert ps. induction params as [|par params IH]; intros ps; simpl.
  - split.
    + intros H. apply Ok_inj in H. subst ps. constructor.
    + intros H. inversion H. reflexivity.
  - split.
    + intros H. apply rbind_Ok in H. destruct H as (p & Hp & H).
      apply rbind_Ok in H. destruct H as (ps' & Hps & H).
      apply Ok_inj in H. subst ps. constructor; [exact Hp|]. now apply IH.
    + intros H. inversion H as [|? p ? ps' Hp Hps]; subst.
      rewrite Hp. simpl. apply IH in Hps. rewrite Hps. reflexivity.
Qed.








(** C2: the index of a power law given in the catalog as value -2 with
    scale -1 has the product 2, so the sign branch is not taken: the
    translator hands the raw value -2 on, a negative index, with the raw
    bounds. *)
Theorem negative_index_with_negative_scale :
  translate_par "PowerLaw" false false Examples.negative_index_par
    = Ok Examples.negative_index_out /\
  (p_value Examples.negative_index_out <? 0)%float = true /\
  (x_value Examples.negative_index_par
     * x_scale Examples.negative_index_par <? 0)%float = false.
Proof. repeat split. Qed.

(** Where the sign branch is taken the bounds come out ordered. *)
Lemma flip_index_orders_bounds (new_par : NewPar) :
  str_in (np_name new_par) ["index"; "index_1"; "index_2"; "beta"] = true ->
  (np_value new_par * np_scale new_par <? 0)%float = true ->
  is_nan (-1 * np_min new_par * np_scale new_par)%float = false ->
  is_nan (-1 * np_max new_par * np_scale new_par)%float = false ->
  let out := flip_index false new_par in
  np_value out = (-1 * (np_value new_par * np_scale new_par))%float /\
  (np_min out <=? np_max out)%float = true.
Proof.
  intros Hn Hv Hlo Hhi. unfold flip_index. rewrite Hn, Hv. simpl.
  split; [reflexivity|]. now apply py_min_le_py_max.
Qed.




End TranslatorClaims.

(** ** The source model assembler *)

Section AssemblyFacts.

Variable env : Environment.

Ltac unfold_run H :=
  unfold bind, ret, lift, read_config, write_config, check in H.

Ltac split_run H :=
  repeat (cbn beta iota in H;
          match type of H with
          | context [match ?x with _ => _ end] => destruct x eqn:?
          end).

Lemma read_ebl_config (config config' : Target) (c : SkyModelComponent)
  (rest : list SkyModelComponent) (r : Result SpectralModel) :
  components config = c :: rest ->
  read_ebl env (ebl_abs (spectral c)) config = (config', r) ->
  reference_renamed env config config'.
Proof.
  intros Hc H. unfold read_ebl in H. unfold_run H.
  destruct (is_file env (ebl_filename (ebl_abs (spectral c)))) eqn:Hfile.
  - destruct (ebl_read_error env _); inversion H; subst.
    + now left.
    + right. eauto.
  - destruct (ebl_builtin_error env _); inversion H; subst; now left.
Qed.

(** Computations that leave the configuration alone. *)
Lemma pure_ret {A : Type} (a : A) : pure (ret a).
Proof. intros config. reflexivity. Qed.

Lemma pure_lift {A : Type} (r : Result A) : pure (lift r).
Proof. intros config. reflexivity. Qed.

Lemma pure_read_config : pure read_config.
Proof. intros config. reflexivity. Qed.

Lemma pure_bind {A B : Type} (c : Config A) (k : A -> Config B) :
  pure c -> (forall a, pure (k a)) -> pure (bind c k).
Proof.
  intros Hc Hk config. unfold bind. specialize (Hc config).
  destruct (c config) as [config1 [e|a]]; simpl in *; subst; [reflexivity|].
  apply Hk.
Qed.

Lemma pure_run {A : Type} (c : Config A) (config config' : Target)
  (r : Result A) :
  pure c -> c config = (config', r) -> config' = config.
Proof. intros Hc H. specialize (Hc config). rewrite H in Hc. exact Hc. Qed.

Lemma bind_inv {S A B : Type} (c : Mutating S A) (k : A -> Mutating S B)
  (config config' : S) (r : Result B) :
  bind c k config = (config', r) ->
  (exists e, c config = (config', Raise e) /\ r = Raise e) \/
  (exists a config1, c config = (config1, Ok a) /\ k a config1 = (config', r)).
Proof.
  unfold bind. destruct (c config) as [config1 [e|a]]; intros H.
  - left. inversion H; subst. eauto.
  - right. eauto.
Qed.

Ltac purity :=
  repeat first
    [ apply pure_ret | apply pure_lift | apply pure_read_config
    | apply pure_bind; [ | intros ? ]
    | match goal with
      | |- pure (if ?b then _ else _) => destruct b
      | |- pure (match ?x with _ => _ end) => destruct x
      end ].

Lemma read_models_from_asgardpy_config_config (config config' : Target)
  (r : Result (SpectralModel * option SpatialModel)) :
  read_models_from_asgardpy_config env config = (config', r) ->
  reference_renamed env config config'.
Proof.
  unfold read_models_from_asgardpy_config. intros H.
  unfold bind at 1 in H. unfold read_config in H. cbn beta iota in H.
  destruct (components config) as [|c rest] eqn:Hc.
  { inversion H. now left. }
  apply bind_inv in H.
  assert (Hspec : forall config1 r1,
    (if negb (String.eqb (ebl_reference (ebl_abs (spectral c))) "")
     then
       run model1 := lift (spectral_from_config env (spectral c)) in
       run model2 := read_ebl env (ebl_abs (spectral c)) in
       ret (CompoundSpectral model1
              (if negb (ebl_alpha_norm (ebl_abs (spectral c)) =? 0)%float
               then set_alpha_norm (ebl_alpha_norm (ebl_abs (spectral c))) model2
               else model2))
     else lift (spectral_from_config env (spectral c))) config
    = (config1, r1) ->
    reference_renamed env config config1).
  { intros config1 r1 H1.
    destruct (negb _).
    - apply bind_inv in H1. destruct H1 as [(e & H1 & _)|(model1 & c1 & H1 & H2)].
      { inversion H1. now left. }
      inversion H1; subst c1.
      apply bind_inv in H2. destruct H2 as [(e & H2 & _)|(model2 & c2 & H2 & H3)].
      { eapply read_ebl_config; eauto. }
      inversion H3; subst. eapply read_ebl_config; eauto.
    - inversion H1. now left. }
  destruct H as [(e & H & _)|(sm & config1 & H & H2)].
  - eapply Hspec; eauto.
  - apply pure_run in H2; [|purity]. subst config'. eapply Hspec; eauto.
Qed.

(** The configuration after [create_source_skymodel], whether it returns
    or raises. *)
Lemma create_source_skymodel_config (source : Source) (aux_path : Path)
  (config config' : Target) (r : Result (SkyModel * bool)) :
  create_source_skymodel env source aux_path config = (config', r) ->
  reference_renamed env config config'.
Proof.
  unfold create_source_skymodel. intros H.
  unfold bind at 1 in H. unfold read_config in H. cbn beta iota in H.
  set (is_source_target :=
         String.eqb (name_check (src_name source))
           (name_check (source_name config))) in *.
  apply bind_inv in H.
  destruct H as [(e & H & _)|(spectral_model & config1 & H & H2)].
  { destruct (is_source_target && negb (from_3d config)).
    - apply bind_inv in H. destruct H as [(e' & H & _)|(m & c1 & H & H3)].
      + eapply read_models_from_asgardpy_config_config; eauto.
      + inversion H3; subst.
    - inversion H. }
  assert (H1 : reference_renamed env config config1 /\
               (spectral_model = None -> config1 = config)).
  { destruct (is_source_target && negb (from_3d config)).
    - apply bind_inv in H. destruct H as [(e' & H & He)|(m & c1 & H & H3)].
      + discriminate He.
      + inversion H3; subst. split; [|discriminate].
        eapply read_models_from_asgardpy_config_config; eauto.
    - inversion H; subst. split; [now left | reflexivity]. }
  destruct H1 as [H1 H1'].
  apply bind_inv in H2.
  destruct spectral_model as [m|].
  - destruct H2 as [(e & H2 & _)|(sm & config2 & H2 & H3)].
    + inversion H2.
    + inversion H2; subst.
      apply pure_run in H3; [|purity]. subst. exact H1.
  - specialize (H1' eq_refl). subst config1.
    assert (H4 : forall config2 r2,
      (run spectral_model :=
         lift (catalog_spectral_model env source is_source_target) in
       match components config with
       | [] => lift (Raise IndexError)
       | component :: _ =>
           if is_source_target
           then
             run ebl_spectral_model := read_ebl env (ebl_abs (spectral component)) in
             match spectral_model with
             | Some m => ret (Some (CompoundSpectral m ebl_spectral_model))
             | None => lift (Raise TypeError)
             end
           else ret spectral_model
       end) config = (config2, r2) ->
      reference_renamed env config config2).
    { intros config2 r2 H4. apply bind_inv in H4.
      destruct H4 as [(e & H4 & _)|(sm & c2 & H4 & H5)].
      { inversion H4. now left. }
      inversion H4; subst c2.
      destruct (components config) as [|c rest] eqn:Hc.
      { inversion H5. now left. }
      destruct is_source_target.
      - apply bind_inv in H5.
        destruct H5 as [(e & H5 & _)|(ebl & c3 & H5 & Hret)].
        + eapply read_ebl_config; eauto.
        + apply pure_run in Hret; [|purity]. subst.
          eapply read_ebl_config; eauto.
      - inversion H5. now left. }
    destruct H2 as [(e & H2 & _)|(sm & config2 & H2 & H3)].
    + eapply H4; eauto.
    + apply pure_run in H3; [|purity]. subst. eapply H4; eauto.
Qed.

(** [set_reference] writes the reference and nothing else: two
    configurations agree off the reference when they agree after it is
    blanked. *)
Lemma set_reference_twice (r r' : string) (config : Target) :
  set_reference r (set_reference r' config) = set_reference r config.
Proof.
  destruct config as [n sp u mf ex [|c rest] cov f3]; reflexivity.
Qed.

Lemma reference_renamed_elsewhere (config config' : Target) :
  reference_renamed env config config' ->
  set_reference "" config' = set_reference "" config.
Proof.
  intros [->|(c & rest & _ & _ & ->)]; [reflexivity|].
  apply set_reference_twice.
Qed.




(** *** The class chosen for an attenuated log-parabola *)



End AssemblyFacts.

Section KeepSign.
Import Translator TranslatorFacts.



End KeepSign.

(** ** Claims on the assembler *)



(** The comparison of the names keeps the case. *)
Example name_check_keeps_case :
  name_check "Crab_Nebula" = "CrabNebula" /\
  String.eqb (name_check "crab nebula") (name_check "Crab_Nebula") = false.
Proof. split; reflexivity. Qed.

(** C8, as the code has it: whether [create_source_skymodel] or
    [read_models_from_asgardpy_config] returns or raises, the configuration
    is left as it was in every field but the reference of the attenuation
    block of the first component; the reference too is left as it was,
    unless the file name of that block is a file that exists, and then it
    may have become the name derived from the file. *)
Theorem configuration_kept_but_reference :
  forall (env : Environment) (source : Source) (aux_path : Path)
         (config config' : Target),
    ((exists r, create_source_skymodel env source aux_path config = (config', r))
     \/ (exists r, read_models_from_asgardpy_config env config = (config', r))) ->
    set_reference "" config' = set_reference "" config /\
    (config' = config \/
     exists c rest,
       components config = c :: rest /\
       is_file env (ebl_filename (ebl_abs (spectral c))) = true /\
       config' =
         set_reference
           (reference_of_file (ebl_filename (ebl_abs (spectral c)))) config).
Proof.
  intros env source aux_path config config' H.
  assert (Hr : reference_renamed env config config').
  { destruct H as [[r H]|[r H]].
    - eapply create_source_skymodel_config; eauto.
    - eapply read_models_from_asgardpy_config_config; eauto. }
  split; [now apply (reference_renamed_elsewhere env)|exact Hr].
Qed.

Lemma configuration_kept_but_reference_witness :
  (exists r,
     create_source_skymodel Examples.env (Examples.crab "LogParabola") "aux"
       (Examples.target Examples.ebl_file_block false)
     = (Examples.target Examples.ebl_renamed_block false, r)) /\
  set_reference "" (Examples.target Examples.ebl_renamed_block false)
    = set_reference "" (Examples.target Examples.ebl_file_block false).
Proof.
  assert (H : exists r,
     create_source_skymodel Examples.env (Examples.crab "LogParabola") "aux"
       (Examples.target Examples.ebl_file_block false)
     = (Examples.target Examples.ebl_renamed_block false, r)).
  { exists (snd (create_source_skymodel Examples.env
                   (Examples.crab "LogParabola") "aux"
                   (Examples.target Examples.ebl_file_block false))).
    reflexivity. }
  split; [exact H|].
  exact (proj1 (configuration_kept_but_reference Examples.env
                  (Examples.crab "LogParabola") "aux" _ _ (or_introl H))).
Defined.

(** C8, as the claim words it, fails: with a custom EBL file on disk the
    call returns and the reference of the configuration has changed from
    "dominguez" to "my_model". *)
Lemma custom_ebl_file_renames_reference :
  ~ (forall (env : Environment) (source : Source) (aux_path : Path)
       (config config' : Target) (out : SkyModel * bool),
       create_source_skymodel env source aux_path config = (config', Ok out) ->
       config' = config).
Proof.
  intros H.
  assert (E : exists out,
     create_source_skymodel Examples.env (Examples.crab "LogParabola") "aux"
       (Examples.target Examples.ebl_file_block false)
     = (Examples.target Examples.ebl_renamed_block false, Ok out)).
  { eexists. vm_compute. reflexivity. }
  destruct E as [out E]. apply H in E. discriminate E.
Qed.



(** ** The binder *)

Section BindingFacts.

Variable env : Environment.

Lemma only_grown_refl (w : World) : only_grown w w.
Proof. split; [reflexivity|]. exists []. now rewrite app_nil_r. Qed.

Lemma only_grown_lookup (w w' : World) (l : loc) (model : SkyModel) :
  only_grown w w' -> w_heap w !! l = Some model -> w_heap w' !! l = Some model.
Proof.
  intros [_ [new_models ->]] H. now apply lookup_app_l_Some.
Qed.

Lemma Models__items (heap : list SkyModel) (items : list loc) (ms : Models) :
  Models_ heap items = Ok ms ->
  ms = {| models_items := items; models_datasets_names := None |}.
Proof.
  unfold Models_. intros H. apply rbind_Ok in H. destruct H as (names & _ & H).
  destruct (unique names); [|discriminate H].
  apply Ok_inj in H. now subst ms.
Qed.

(** Whatever the argument and whether a collection comes out or an
    exception, resolving the models leaves the datasets and the model
    objects alone. *)
Lemma resolve_models_only_grown (models : ModelsArgument) (w w1 : World)
  (r : Result Models) :
  resolve_models env models w = (w1, r) -> only_grown w w1.
Proof.
  unfold resolve_models. intros H. destruct models as [ms|l|p|].
  - unfold bind, read_world, lift in H. injection H as <- _.
    apply only_grown_refl.
  - unfold bind, read_world, lift in H. injection H as <- _.
    apply only_grown_refl.
  - unfold bind, read_world, lift, alloc_all in H.
    destruct (models_read env p) as [e|read].
    + injection H as <- _. apply only_grown_refl.
    + injection H as <- _. split; [reflexivity|]. now exists read.
  - unfold bind at 1 in H. unfold read_world at 1 in H. cbn beta iota in H.
    destruct (0 <? length (components (w_config w)))%nat.
    + unfold bind, on_config, read_world, alloc, lift in H.
      destruct (read_models_from_asgardpy_config env (w_config w))
        as [config' [e|pair]].
      * injection H as <- _. split; [reflexivity|].
        exists []. cbn. now rewrite app_nil_r.
      * injection H as <- _. split; [reflexivity|]. cbn. eauto.
    + unfold lift in H. injection H as <- _. apply only_grown_refl.
Qed.


(** With one model, neither the model nor any other object of the heap is
    written: the names go to the collection object. *)
Lemma set_models_of_one_model (datasets_name_list : option (list string))
  (l : loc) (target_source_name : option string) (w : World) (ms : Models) :
  Models_ (w_heap w) [l] = Ok ms ->
  set_models env datasets_name_list (AList [l]) target_source_name w =
  ({| w_config := w_config w;
      w_datasets := {| datasets_names := datasets_names (w_datasets w);
                       datasets_models := [l] |};
      w_heap := w_heap w |},
   Ok tt).
Proof.
  intros Hms. unfold set_models, resolve_models.
  unfold bind, read_world, lift. rewrite Hms.
  apply Models__items in Hms. subst ms. reflexivity.
Qed.

End BindingFacts.

(** C6: a collection of one model, bound with the list ["MAGIC"]: the code
    assigns the list to the attribute [datasets_names] of the collection
    object, which is dropped when the models are attached, and the model
    keeps the [datasets_names] it had ([None] here). *)
Theorem single_model_keeps_its_datasets_names :
  set_models Examples.env (Some ["MAGIC"]) (AList [0%nat]) None
    (Examples.world (Examples.target Examples.ebl_builtin_block false)) =
  ({| w_config := Examples.target Examples.ebl_builtin_block false;
      w_datasets := {| datasets_names := ["Fermi-LAT"; "MAGIC"];
                       datasets_models := [0%nat] |};
      w_heap := [Examples.crab_model; Examples.neighbour_model] |},
   Ok tt) /\
  sky_datasets_names Examples.crab_model = None /\
  sky_datasets_names Examples.crab_model <> Some ["MAGIC"].
Proof. repeat split. discriminate. Qed.

(** C7: [set_models] raises [TypeError] when the argument is of no
    supported type and the configuration has no component; and whenever it
    raises, the dataset collection is as it was and so is every model
    object that existed, those attached to the datasets among them. *)
Theorem set_models_raises_before_binding :
  forall (env : Environment) (datasets_name_list : option (list string))
         (models : ModelsArgument) (target_source_name : option string)
         (w : World),
    (models = AOther -> components (w_config w) = [] ->
     set_models env datasets_name_list models target_source_name w
       = (w, Raise TypeError)) /\
    (forall w' e,
       set_models env datasets_name_list models target_source_name w
         = (w', Raise e) ->
       w_datasets w' = w_datasets w /\
       forall l model,
         w_heap w !! l = Some model -> w_heap w' !! l = Some model).
Proof.
  intros env datasets_name_list models target_source_name w. split.
  - intros -> Hc. unfold set_models, resolve_models.
    unfold bind, read_world. rewrite Hc. reflexivity.
  - intros w' e H.
    assert (Hg : only_grown w w').
    { unfold set_models in H. apply bind_inv in H.
      destruct H as [(e' & H & _)|(ms & w1 & H & H1)].
      { eapply resolve_models_only_grown; eauto. }
      apply resolve_models_only_grown in H.
      unfold bind at 1 in H1. unfold read_world in H1. cbn beta iota in H1.
      apply bind_inv in H1.
      destruct H1 as [(e' & H1 & _)|(ms' & w2 & _ & H2)].
      - destruct (1 <? length (models_items ms))%nat; [|discriminate H1].
        destruct (find_by_name _ _ _) as [l|].
        + unfold bind, set_datasets_names, ret in H1.
          destruct (w_heap w1 !! l); [discriminate H1|].
          injection H1 as <- _. exact H.
        + unfold lift in H1. injection H1 as <- _. exact H.
      - discriminate H2. }
    split; [apply Hg|].
    intros l model. now apply only_grown_lookup.
Qed.

Lemma set_models_raises_before_binding_witness :
  (AOther = AOther /\
   components (w_config (Examples.world Examples.empty_target)) = [] /\
   set_models Examples.env None AOther None
     (Examples.world Examples.empty_target)
   = (Examples.world Examples.empty_target, Raise TypeError)) /\
  (set_models Examples.env None (AList [0%nat; 1%nat]) (Some "nobody")
     (Examples.world Examples.empty_target)
   = (Examples.world Examples.empty_target, Raise ValueError) /\
   w_datasets (Examples.world Examples.empty_target)
   = w_datasets (Examples.world Examples.empty_target)).
Proof.
  split.
  - split; [reflexivity|]. split; [reflexivity|].
    apply (set_models_raises_before_binding Examples.env None AOther None
             (Examples.world Examples.empty_target)); reflexivity.
  - split; [reflexivity|].
    exact (proj1 (proj2 (set_models_raises_before_binding Examples.env None
                           (AList [0%nat; 1%nat]) (Some "nobody")
                           (Examples.world Examples.empty_target))
                    (Examples.world Examples.empty_target) ValueError
                    eq_refl)).
Defined.

(** * Further properties of the translator *)

Section FloatSign.

Lemma Prim2SF_zero : Prim2SF 0 = S754_zero false.
Proof. reflexivity. Qed.

Lemma Prim2SF_minus_one : exists m e, Prim2SF (-1) = S754_finite true m e.
Proof. eexists _, _. vm_compute. reflexivity. Qed.

(** A product rounded with a positive sign is not below zero. *)
Lemma binary_round_aux_not_negative (prec emax m e : Z)
  (l : SpecFloat.location) :
  SFltb (SpecFloat.binary_round_aux prec emax false m e l) (S754_zero false)
  = false.
Proof.
  unfold SpecFloat.binary_round_aux.
  destruct (SpecFloat.shr_fexp prec emax m e l) as [mrs' e'].
  destruct (SpecFloat.shr_fexp prec emax _ e' SpecFloat.loc_Exact)
    as [mrs'' e''].
  destruct (SpecFloat.shr_m mrs''); [reflexivity| |reflexivity].
  destruct (Z.leb e'' (emax - prec)); reflexivity.
Qed.

(** [-1 * x] is not negative when [x] is. *)
Lemma negated_negative_is_not_negative (x : float) :
  (x <? 0)%float = true -> (-1 * x <? 0)%float = false.
Proof.
  rewrite !FloatAxioms.ltb_spec, FloatAxioms.mul_spec, Prim2SF_zero.
  destruct Prim2SF_minus_one as (m1 & e1 & ->).
  destruct (Prim2SF x) as [s|s| |s m e]; try discriminate;
    destruct s; try discriminate; intros _.
  - reflexivity.
  - unfold SF64mul, SFmul. cbn [xorb]. apply binary_round_aux_not_negative.
Qed.

End FloatSign.

Section TranslatorExtras.
Import Translator TranslatorFacts.

(** X1: the list returned has one parameter for each parameter of the
    catalog, in the same order and under its canonical name: no entry is
    dropped, whatever its name. *)
Theorem translation_keeps_every_parameter :
  forall (params : list XmlPar) (spectrum_type : string)
         (is_target keep_sign : bool) (ps : list Parameter_),
    xml_spectral_model_to_gammapy_params params spectrum_type is_target
      keep_sign = Ok ps ->
    length ps = length params /\
    List.map p_name ps = List.map (canonical_name spectrum_type) params.
Proof.
  intros params spectrum_type is_target keep_sign ps H.
  apply xml_spectral_model_to_gammapy_params_each in H.
  induction H as [|par p params ps Hp _ [IHl IHn]]; [split; reflexivity|].
  apply translate_par_frame in Hp. destruct Hp as [Hn _].
  cbn [length List.map]. rewrite IHl, IHn, Hn. split; reflexivity.
Qed.

Lemma translation_keeps_every_parameter_witness :
  xml_spectral_model_to_gammapy_params
    [Examples.norm_par; Examples.alpha_par; Examples.beta_par;
     Examples.eb_par] "LogParabola" false false
  = Ok MoreExamples.log_parabola_out /\
  length MoreExamples.log_parabola_out = 4%nat /\
  List.map p_name MoreExamples.log_parabola_out
  = ["amplitude"; "alpha"; "beta"; "reference"].
Proof.
  split; [reflexivity|].
  exact (translation_keeps_every_parameter
           [Examples.norm_par; Examples.alpha_par; Examples.beta_par;
            Examples.eb_par] "LogParabola" false false
           MoreExamples.log_parabola_out eq_refl).
Defined.

(** X2: the translation raises nothing unless it has a cutoff of the
    family PLSuperExpCutoff to invert: for every other family, and for a
    list without a parameter translated to lambda_, it returns. *)
Theorem translation_fails_only_on_a_cutoff :
  forall (params : list XmlPar) (spectrum_type : string)
         (is_target keep_sign : bool),
    spectrum_type <> "PLSuperExpCutoff" \/
    Forall (fun par => canonical_name spectrum_type par <> "lambda_") params ->
    exists ps,
      xml_spectral_model_to_gammapy_params params spectrum_type is_target
        keep_sign = Ok ps.
Proof.
  intros params spectrum_type is_target keep_sign H.
  unfold xml_spectral_model_to_gammapy_params.
  induction params as [|par params IH]; [now exists []|].
  destruct IH as [ps IH].
  { destruct H as [H|H]; [now left|]. right. now inversion H. }
  destruct (translate_par_total spectrum_type is_target keep_sign par)
    as [p Hp].
  { destruct H as [H|H]; [now right|]. left. now inversion H. }
  exists (p :: ps). cbn [map_result]. rewrite Hp. cbn [rbind].
  rewrite IH. reflexivity.
Qed.

Lemma translation_fails_only_on_a_cutoff_witness :
  ("PLSuperExpCutoff2" <> "PLSuperExpCutoff" \/
   Forall (fun par => canonical_name "PLSuperExpCutoff2" par <> "lambda_")
     [MoreExamples.zero_cutoff_par]) /\
  exists ps,
    xml_spectral_model_to_gammapy_params [MoreExamples.zero_cutoff_par]
      "PLSuperExpCutoff2" true false = Ok ps.
Proof.
  assert (H : "PLSuperExpCutoff2" <> "PLSuperExpCutoff" \/
              Forall (fun par =>
                        canonical_name "PLSuperExpCutoff2" par <> "lambda_")
                [MoreExamples.zero_cutoff_par]) by (left; discriminate).
  split; [exact H|].
  exact (translation_fails_only_on_a_cutoff [MoreExamples.zero_cutoff_par]
           "PLSuperExpCutoff2" true false H).
Defined.

(** X3: a cutoff of the family PLSuperExpCutoff whose value times scale is
    zero, or that has no error and a bound that is zero once scaled, makes
    the translation raise ZeroDivisionError; no list that holds such a
    parameter is translated. *)
Theorem zero_cutoff_raises :
  forall (is_target keep_sign : bool) (par : XmlPar),
    canonical_name "PLSuperExpCutoff" par = "lambda_" ->
    (x_value par * x_scale par =? 0)%float = true \/
    (x_error par = None /\
     ((x_min par * x_scale par =? 0)%float = true \/
      (x_max par * x_scale par =? 0)%float = true)) ->
    translate_par "PLSuperExpCutoff" is_target keep_sign par
      = Raise ZeroDivisionError /\
    forall params ps,
      In par params ->
      xml_spectral_model_to_gammapy_params params "PLSuperExpCutoff"
        is_target keep_sign <> Ok ps.
Proof.
  intros is_target keep_sign par N Hz.
  assert (Hr : translate_par "PLSuperExpCutoff" is_target keep_sign par
               = Raise ZeroDivisionError).
  { destruct (read_keys_numbers "PLSuperExpCutoff" is_target par)
      as (Ev & Es & Elo & Ehi & Ee).
    rewrite <- (read_keys_name "PLSuperExpCutoff" is_target par) in N.
    unfold translate_par.
    destruct (read_keys "PLSuperExpCutoff" is_target par)
      as [n v s mn mx e fr u isn].
    cbn [np_name np_value np_scale np_min np_max np_error] in *. subst.
    unfold scale_energy, scale_amplitude, flip_index, scale_lambda.
    cbn [np_name str_in existsb String.eqb Ascii.eqb Bool.eqb orb andb negb].
    unfold invert_cutoff, truediv.
    cbn [np_value np_scale np_min np_max np_error].
    destruct (x_value par * x_scale par =? 0)%float eqn:Hv; [reflexivity|].
    destruct Hz as [Hz|(-> & Hz)]; [discriminate Hz|].
    cbn [rbind].
    destruct (x_min par * x_scale par =? 0)%float eqn:Hlo; [reflexivity|].
    destruct Hz as [Hz|Hz]; [discriminate Hz|].
    rewrite Hz. reflexivity. }
  split; [exact Hr|].
  intros params ps Hin H.
  apply xml_spectral_model_to_gammapy_params_each in H.
  induction H as [|par' p params ps Hp _ IH]; [contradiction|].
  destruct Hin as [->|Hin]; [|now apply IH].
  rewrite Hr in Hp. discriminate Hp.
Qed.

Lemma zero_cutoff_raises_witness :
  canonical_name "PLSuperExpCutoff" MoreExamples.zero_cutoff_par = "lambda_" /\
  (x_value MoreExamples.zero_cutoff_par
     * x_scale MoreExamples.zero_cutoff_par =? 0)%float = true /\
  translate_par "PLSuperExpCutoff" false false MoreExamples.zero_cutoff_par
    = Raise ZeroDivisionError.
Proof.
  split; [reflexivity|]. split; [reflexivity|].
  exact (proj1 (zero_cutoff_raises false false MoreExamples.zero_cutoff_par
                  eq_refl (or_introl eq_refl))).
Defined.

Lemma str_in_false_cons (x y : string) (l : list string) :
  str_in x (y :: l) = false -> String.eqb x y = false /\ str_in x l = false.
Proof. unfold str_in. cbn [existsb]. apply orb_false_iff. Qed.

Ltac names_apart H :=
  repeat match type of H with
         | str_in _ (_ :: _) = false =>
             let E := fresh "E" in
             apply str_in_false_cons in H; destruct H as [E H]
         end.

Ltac use_apart :=
  repeat match goal with
         | E : String.eqb _ _ = false |- _ => rewrite E; clear E
         end.

(** A name the loop does not rename is left as the catalog spells it. *)
Lemma read_keys_of_other_name (spectrum_type : string) (is_target : bool)
  (par : XmlPar) :
  str_in (lower (x_name par)) renamed_names = false ->
  read_keys spectrum_type is_target par = copy_keys is_target par.
Proof.
  intros H. unfold renamed_names in H. names_apart H.
  unfold read_keys, rename_keys, when, str_in. cbn [existsb].
  use_apart. reflexivity.
Qed.

(** X4: a parameter whose name the translator does not know is not
    dropped: it comes out under the name of the catalog, with the value,
    error and bounds of the catalog (the scale is not applied), no unit,
    and frozen as the flag of the catalog and the target say. *)
Theorem unknown_name_passes_through :
  forall (spectrum_type : string) (is_target keep_sign : bool) (par : XmlPar),
    str_in (lower (x_name par)) renamed_names = false ->
    str_in (x_name par) treated_names = false ->
    translate_par spectrum_type is_target keep_sign par =
    Ok {| p_name := x_name par;
          p_value := x_value par;
          p_unit := "";
          p_error := x_error par;
          p_min := x_min par;
          p_max := x_max par;
          p_frozen := String.eqb (x_free par) "0" && negb is_target;
          p_is_norm := false |}.
Proof.
  intros spectrum_type is_target keep_sign par Hr Ht.
  unfold translate_par. rewrite read_keys_of_other_name by assumption.
  assert (Hs : str_in (lower (x_name par)) ["scale"; "eb"] = false).
  { unfold renamed_names in Hr. names_apart Hr.
    unfold str_in. cbn [existsb]. use_apart. reflexivity. }
  unfold treated_names in Ht. names_apart Ht.
  unfold copy_keys. rewrite Hs. cbn [negb].
  unfold scale_energy, scale_amplitude, flip_index, scale_lambda,
    freeze_alpha, str_in.
  repeat (cbn [np_name existsb orb andb negb rbind];
          match goal with
          | E : String.eqb _ _ = false |- _ => rewrite E
          end).
  reflexivity.
Qed.

Lemma unknown_name_passes_through_witness :
  str_in (lower (x_name Examples.alpha_par)) renamed_names = false /\
  str_in (x_name (with_name "Gamma" Examples.alpha_par)) treated_names = false /\
  translate_par "LogParabola" true false (with_name "Gamma" Examples.alpha_par)
  = Ok {| p_name := "Gamma"; p_value := 2; p_unit := ""; p_error := None;
          p_min := 0; p_max := 5; p_frozen := false; p_is_norm := false |}.
Proof.
  split; [reflexivity|]. split; [reflexivity|].
  exact (unknown_name_passes_through "LogParabola" true false
           (with_name "Gamma" Examples.alpha_par) eq_refl eq_refl).
Defined.

(** X5: an index whose value times scale is negative is translated, when
    the sign is not kept, to minus that product, which is not negative;
    its bounds are the minimum and the maximum of the negated scaled bounds
    of the catalog, in order unless one of them is NaN. *)
Theorem negative_product_is_flipped :
  forall (spectrum_type : string) (is_target : bool) (par : XmlPar),
    let val_ := (x_value par * x_scale par)%float in
    let lo := (-1 * x_min par * x_scale par)%float in
    let hi := (-1 * x_max par * x_scale par)%float in
    str_in (canonical_name spectrum_type par)
      ["index"; "index_1"; "index_2"; "beta"] = true ->
    (val_ <? 0)%float = true ->
    exists p,
      translate_par spectrum_type is_target false par = Ok p /\
      p_value p = (-1 * val_)%float /\
      (p_value p <? 0)%float = false /\
      p_min p = py_min lo hi /\
      p_max p = py_max lo hi /\
      (is_nan lo = false -> is_nan hi = false ->
       (p_min p <=? p_max p)%float = true).
Proof.
  intros spectrum_type is_target par val_ lo hi Hn Hv.
  destruct (read_keys_numbers spectrum_type is_target par)
    as (Ev & Es & Elo & Ehi & Ee).
  rewrite <- (read_keys_name spectrum_type is_target par) in Hn.
  unfold translate_par.
  destruct (read_keys spectrum_type is_target par) as [n v s mn mx e fr u isn].
  cbn [np_name np_value np_scale np_min np_max np_error] in *. subst.
  assert (Hflip :
    flip_index false
      (scale_amplitude
         (scale_energy
            {| np_name := n; np_value := x_value par; np_scale := x_scale par;
               np_min := x_min par; np_max := x_max par;
               np_error := x_error par; np_frozen := fr; np_unit := u;
               np_is_norm := isn |})) =
    {| np_name := n; np_value := (-1 * val_)%float; np_scale := x_scale par;
       np_min := py_min lo hi; np_max := py_max lo hi;
       np_error := x_error par; np_frozen := fr; np_unit := u;
       np_is_norm := isn |}).
  { unfold flip_index, scale_amplitude, scale_energy.
    name_cases Hn; subst n;
      cbn [np_name str_in existsb String.eqb Ascii.eqb Bool.eqb orb andb negb
           np_value np_scale np_min np_max];
      fold val_; rewrite Hv; reflexivity. }
  rewrite Hflip. clear Hflip.
  unfold scale_lambda, freeze_alpha.
  name_cases Hn; subst n;
    cbn [np_name str_in existsb String.eqb Ascii.eqb Bool.eqb orb andb negb
         rbind];
    (eexists; split; [reflexivity|]; cbn [to_Parameter p_value p_min p_max];
     repeat split;
     [ now apply negated_negative_is_not_negative
     | now apply py_min_le_py_max ]).
Qed.

Lemma negative_product_is_flipped_witness :
  str_in (canonical_name "PowerLaw" MoreExamples.index_par)
    ["index"; "index_1"; "index_2"; "beta"] = true /\
  (x_value MoreExamples.index_par * x_scale MoreExamples.index_par <? 0)%float
    = true /\
  exists p,
    translate_par "PowerLaw" false false MoreExamples.index_par = Ok p /\
    p_value p = 2.1%float /\ p_min p = 0%float /\ p_max p = 5%float.
Proof.
  split; [reflexivity|]. split; [reflexivity|].
  destruct (negative_product_is_flipped "PowerLaw" false
              MoreExamples.index_par eq_refl eq_refl)
    as (p & Hp & Hv & _ & Hlo & Hhi & _).
  exists p. split; [exact Hp|]. rewrite Hv, Hlo, Hhi. repeat split.
Defined.

(** X6: [keep_sign] changes nothing but the indices whose value times
    scale is negative: for every other parameter the translation is the
    same with and without it. *)
Theorem keep_sign_only_matters_for_negative_indices :
  forall (spectrum_type : string) (is_target : bool) (par : XmlPar),
    str_in (canonical_name spectrum_type par)
      ["index"; "index_1"; "index_2"; "beta"] = false \/
    (x_value par * x_scale par <? 0)%float = false ->
    translate_par spectrum_type is_target false par =
    translate_par spectrum_type is_target true par.
Proof.
  intros spectrum_type is_target par H.
  destruct (read_keys_numbers spectrum_type is_target par)
    as (Ev & Es & _ & _ & _).
  rewrite <- (read_keys_name spectrum_type is_target par) in H.
  unfold translate_par.
  destruct (read_keys spectrum_type is_target par) as [n v s mn mx e fr u isn].
  cbn [np_name np_value np_scale] in *. subst v s.
  set (np2 := scale_amplitude (scale_energy _)).
  assert (Hflip : flip_index false np2 = flip_index true np2);
    [|now rewrite Hflip].
  unfold flip_index. rewrite andb_false_r. cbn [negb]. rewrite andb_true_r.
  destruct (str_in (np_name np2) ["index"; "index_1"; "index_2"; "beta"])
    eqn:Hn2; [|reflexivity].
  assert (Hn : np_name np2 = n).
  { subst np2. rewrite (proj1 (scale_amplitude_frame _)).
    apply scale_energy_frame. }
  rewrite Hn in Hn2. destruct H as [H|H]; [congruence|].
  assert (Hv : (np_value np2 * np_scale np2)%float
               = (x_value par * x_scale par)%float).
  { subst np2. unfold scale_amplitude, scale_energy.
    name_cases Hn2; subst n; reflexivity. }
  rewrite Hv, H. reflexivity.
Qed.

Lemma keep_sign_only_matters_for_negative_indices_witness :
  (str_in (canonical_name "PowerLaw" Examples.negative_index_par)
     ["index"; "index_1"; "index_2"; "beta"] = false \/
   (x_value Examples.negative_index_par
      * x_scale Examples.negative_index_par <? 0)%float = false) /\
  translate_par "PowerLaw" false false Examples.negative_index_par =
  translate_par "PowerLaw" false true Examples.negative_index_par.
Proof.
  assert (H : str_in (canonical_name "PowerLaw" Examples.negative_index_par)
                ["index"; "index_1"; "index_2"; "beta"] = false \/
              (x_value Examples.negative_index_par
                 * x_scale Examples.negative_index_par <? 0)%float = false)
    by (right; reflexivity).
  split; [exact H|].
  exact (keep_sign_only_matters_for_negative_indices "PowerLaw" false
           Examples.negative_index_par H).
Defined.

(** X7: the names the loop renames are matched without regard to case:
    two parameters that differ only in the case of the letters of such a
    name are translated alike. *)
Theorem renamed_names_ignore_case :
  forall (spectrum_type : string) (is_target keep_sign : bool) (par : XmlPar)
         (name : string),
    lower name = lower (x_name par) ->
    str_in (lower (x_name par)) renamed_names = true ->
    translate_par spectrum_type is_target keep_sign (with_name name par) =
    translate_par spectrum_type is_target keep_sign par.
Proof.
  intros spectrum_type is_target keep_sign par name Hl Hk.
  assert (Hr : read_keys spectrum_type is_target (with_name name par)
               = read_keys spectrum_type is_target par).
  { unfold read_keys, copy_keys. cbn [x_name x_value x_scale x_min x_max
                                      x_free x_error with_name].
    rewrite Hl. unfold renamed_names in Hk.
    name_cases Hk; rewrite Hk; unfold rename_keys, when;
      cbn [str_in existsb String.eqb Ascii.eqb Bool.eqb orb];
      repeat match goal with
             | |- context [if ?c then _ else _] => destruct c
             end;
      reflexivity. }
  unfold translate_par. rewrite Hr. reflexivity.
Qed.

Lemma renamed_names_ignore_case_witness :
  lower "PREFACTOR" = lower (x_name Examples.prefactor_par) /\
  str_in (lower (x_name Examples.prefactor_par)) renamed_names = true /\
  translate_par "PowerLaw" true false
    (with_name "PREFACTOR" Examples.prefactor_par)
  = Ok Examples.prefactor_out_target.
Proof.
  split; [reflexivity|]. split; [reflexivity|].
  rewrite (renamed_names_ignore_case "PowerLaw" true false
             Examples.prefactor_par "PREFACTOR" eq_refl eq_refl).
  reflexivity.
Defined.

(** X8: the translator freezes no parameter that the catalog leaves free:
    a frozen output has the flag [free = "0"]; and for the target it is
    the reference energy (scale or eb in the catalog) or the alpha of a
    super-exponential cutoff. *)
Theorem frozen_only_if_fixed_in_catalog :
  forall (spectrum_type : string) (is_target keep_sign : bool) (par : XmlPar)
         (p : Parameter_),
    translate_par spectrum_type is_target keep_sign par = Ok p ->
    p_frozen p = true ->
    x_free par = "0" /\
    (is_target = true ->
     str_in (lower (x_name par)) ["scale"; "eb"] = true \/
     (p_name p = "alpha" /\
      str_in spectrum_type ["PLSuperExpCutoff"; "PLSuperExpCutoff2"] = true)).
Proof.
  intros spectrum_type is_target keep_sign par p Hp Hf.
  apply translate_par_frame in Hp. destruct Hp as [Hn Hfr].
  rewrite Hf, read_keys_frozen, <- Hn in Hfr. symmetry in Hfr.
  destruct (String.eqb (p_name p) "alpha"
            && str_in spectrum_type ["PLSuperExpCutoff"; "PLSuperExpCutoff2"])
    eqn:Ealpha.
  - apply String.eqb_eq in Hfr. split; [exact Hfr|]. intros _. right.
    apply andb_true_iff in Ealpha. destruct Ealpha as [Ea Es].
    split; [now apply String.eqb_eq | exact Es].
  - destruct (str_in (lower (x_name par)) ["scale"; "eb"]) eqn:El.
    + apply String.eqb_eq in Hfr. split; [exact Hfr|]. intros _. now left.
    + apply andb_true_iff in Hfr. destruct Hfr as [Hfree Ht].
      apply String.eqb_eq in Hfree. apply negb_true_iff in Ht.
      split; [exact Hfree|]. intros Hit. congruence.
Qed.

Lemma frozen_only_if_fixed_in_catalog_witness :
  translate_par "PowerLaw" true false Examples.scale_par
    = Ok MoreExamples.scale_out /\
  p_frozen MoreExamples.scale_out = true /\
  x_free Examples.scale_par = "0" /\
  str_in (lower (x_name Examples.scale_par)) ["scale"; "eb"] = true.
Proof.
  split; [reflexivity|]. split; [reflexivity|].
  destruct (frozen_only_if_fixed_in_catalog "PowerLaw" true false
              Examples.scale_par MoreExamples.scale_out eq_refl eq_refl)
    as [Hfree Htarget].
  split; [exact Hfree|]. reflexivity.
Defined.

End TranslatorExtras.

(** * Further properties of the assembler *)

(** X9: with a configuration that has no component, the call raises for
    every entry of the catalog, the target or not, and leaves the
    configuration alone: [IndexError], unless the translation of the
    catalog has already raised. *)
Theorem no_component_no_sky_model :
  forall (env : Environment) (source : Source) (aux_path : Path)
         (config : Target),
    components config = [] ->
    create_source_skymodel env source aux_path config
      = (config, Raise IndexError) \/
    exists e,
      catalog_spectral_model env source
        (String.eqb (name_check (src_name source))
           (name_check (source_name config))) = Raise e /\
      create_source_skymodel env source aux_path config = (config, Raise e).
Proof.
  intros env source aux_path config Hc.
  remember (create_source_skymodel env source aux_path config) as out eqn:Hout.
  unfold create_source_skymodel in Hout.
  unfold bind at 1 in Hout. unfold read_config in Hout.
  cbn beta iota zeta in Hout.
  set (t := String.eqb (name_check (src_name source))
              (name_check (source_name config))) in *.
  destruct (t && negb (from_3d config)).
  - left. unfold read_models_from_asgardpy_config in Hout.
    unfold bind, read_config, lift in Hout. rewrite Hc in Hout. exact Hout.
  - unfold bind, ret, lift in Hout. rewrite Hc in Hout.
    destruct (catalog_spectral_model env source t) as [e|m].
    + right. exists e. split; [reflexivity | exact Hout].
    + left. exact Hout.
Qed.

Lemma no_component_no_sky_model_witness :
  components Examples.empty_target = [] /\
  create_source_skymodel Examples.env (Examples.neighbour "PowerLaw") "aux"
    Examples.empty_target
  = (Examples.empty_target, Raise IndexError).
Proof.
  split; [reflexivity|].
  destruct (no_component_no_sky_model Examples.env
              (Examples.neighbour "PowerLaw") "aux" Examples.empty_target
              eq_refl) as [H|(e & He & _)]; [exact H|].
  vm_compute in He. discriminate He.
Defined.

(** *** The models of the configuration *)

Ltac show_pure :=
  repeat first
    [ apply pure_ret | apply pure_lift | apply pure_read_config
    | apply pure_bind; [ | intros ? ]
    | match goal with
      | |- pure (if ?b then _ else _) => destruct b
      | |- pure (match ?x with _ => _ end) => destruct x
      end ].

(** The spectral model of the configuration is built by [from_dict] from
    the dictionary of the configuration, under the tag of its type. *)
Lemma spectral_from_config_shape (env : Environment)
  (c : SpectralModelConfig) (m : SpectralModel) :
  spectral_from_config env c = Ok m ->
  m = SpectralFromDict (spectral_type c) (config_to_dict (OfSpectral c)).
Proof.
  unfold spectral_from_config.
  destruct (String.eqb_spec (spectral_type c)
              "ExpCutoffLogParabolaSpectralModel") as [E|_].
  - destruct (from_dict_error env _ _); [discriminate|].
    cbn. intros H. apply Ok_inj in H. subst m. now rewrite E.
  - unfold get_cls. destruct (str_in _ _); [|discriminate]. cbn.
    destruct (from_dict_error env _ _); [discriminate|].
    cbn. intros H. apply Ok_inj in H. now subst m.
Qed.

(** [read_models_from_asgardpy_config] on a configuration with a
    component, as the sequence of its three steps. *)
Lemma read_models_from_asgardpy_config_steps (env : Environment)
  (config : Target) (c : SkyModelComponent) (rest : list SkyModelComponent) :
  components config = c :: rest ->
  read_models_from_asgardpy_config env config =
  (run spectral_model :=
     if negb (String.eqb (ebl_reference (ebl_abs (spectral c))) "")
     then
       run model1 := lift (spectral_from_config env (spectral c)) in
       run model2 := read_ebl env (ebl_abs (spectral c)) in
       ret (CompoundSpectral model1
              (if negb (ebl_alpha_norm (ebl_abs (spectral c)) =? 0)%float
               then set_alpha_norm (ebl_alpha_norm (ebl_abs (spectral c))) model2
               else model2))
     else lift (spectral_from_config env (spectral c)) in
   run spatial_model :=
     if negb (String.eqb (spatial_type (spatial c)) "")
     then
       run cls := lift (get_cls (spatial_registry env)
                          (spatial_type (spatial c))) in
       run _ := lift (check (from_dict_error env cls
                               (config_to_dict (OfSpatial (spatial c))))) in
       ret (Some (SpatialFromDict cls (config_to_dict (OfSpatial (spatial c)))))
     else ret None in
   ret (Named (source_name config) spectral_model, spatial_model)) config.
Proof.
  intros Hc. unfold read_models_from_asgardpy_config.
  unfold bind at 1. unfold read_config. cbn beta iota. rewrite Hc.
  reflexivity.
Qed.

(** X10: with an empty reference the configuration asks for no
    attenuation: whether or not the file name of the attenuation block is
    a file that exists, the configuration is not written and the spectral
    model returned is the model of the configuration alone, named after
    the source; it is returned as soon as the type is registered and
    [from_dict] accepts the dictionary. *)
Theorem empty_reference_means_no_attenuation :
  forall (env : Environment) (config : Target) (c : SkyModelComponent)
         (rest : list SkyModelComponent),
    components config = c :: rest ->
    ebl_reference (ebl_abs (spectral c)) = "" ->
    (forall config' r,
       read_models_from_asgardpy_config env config = (config', r) ->
       config' = config) /\
    (forall config' spectral_model spatial_model,
       read_models_from_asgardpy_config env config
         = (config', Ok (spectral_model, spatial_model)) ->
       spectral_model =
       Named (source_name config)
         (SpectralFromDict (spectral_type (spectral c))
            (config_to_dict (OfSpectral (spectral c))))) /\
    (str_in (spectral_type (spectral c)) (spectral_registry env) = true ->
     from_dict_error env (spectral_type (spectral c))
       (config_to_dict (OfSpectral (spectral c))) = None ->
     spatial_type (spatial c) = "" ->
     read_models_from_asgardpy_config env config =
     (config,
      Ok (Named (source_name config)
            (SpectralFromDict (spectral_type (spectral c))
               (config_to_dict (OfSpectral (spectral c)))),
          None))).
Proof.
  intros env config c rest Hc Href.
  rewrite (read_models_from_asgardpy_config_steps env config c rest Hc).
  rewrite Href. cbn [String.eqb negb].
  split; [|split].
  - intros config' r H. eapply pure_run; [|exact H]. show_pure.
  - intros config' sm sp H.
    apply bind_inv in H.
    destruct H as [(e & _ & He)|(m & c1 & Hm & H)]; [discriminate He|].
    unfold lift in Hm. injection Hm as <- Hm.
    apply spectral_from_config_shape in Hm. subst m.
    apply bind_inv in H.
    destruct H as [(e & _ & He)|(sp' & c2 & _ & H)]; [discriminate He|].
    unfold ret in H. injection H as _ <- _. reflexivity.
  - intros Hreg Hdict Hspatial.
    unfold bind, lift, ret, spectral_from_config, get_cls, check.
    cbn zeta. rewrite Hspatial, Hreg.
    destruct (String.eqb_spec (spectral_type (spectral c))
                "ExpCutoffLogParabolaSpectralModel") as [E|_].
    + rewrite E in Hdict. rewrite Hdict, E. reflexivity.
    + cbn [rbind]. rewrite Hdict. reflexivity.
Qed.

Lemma empty_reference_means_no_attenuation_witness :
  components (Examples.target MoreExamples.ebl_file_no_reference false)
    = [Examples.component MoreExamples.ebl_file_no_reference] /\
  is_file Examples.env (ebl_filename MoreExamples.ebl_file_no_reference)
    = true /\
  read_models_from_asgardpy_config Examples.env
    (Examples.target MoreExamples.ebl_file_no_reference false)
  = (Examples.target MoreExamples.ebl_file_no_reference false,
     Ok (Named "4FGL J0534.5+2201i"
           (SpectralFromDict "LogParabolaSpectralModel"
              {| d_type := "LogParabolaSpectralModel";
                 d_parameters := [Examples.amplitude_config] |}),
         None)).
Proof.
  split; [reflexivity|]. split; [reflexivity|].
  exact (proj2 (proj2 (empty_reference_means_no_attenuation Examples.env
                         (Examples.target MoreExamples.ebl_file_no_reference
                            false)
                         (Examples.component
                            MoreExamples.ebl_file_no_reference)
                         [] eq_refl eq_refl))
           eq_refl eq_refl eq_refl).
Defined.

(** X11: with a reference, the attenuation is read from the custom file
    whenever the file name is a file that exists, whatever the reference
    says, and the reference is then renamed after the file; it is read
    from the built-in tables by the reference only when there is no such
    file.  A file that exists and cannot be read is an error: the built-in
    tables are not tried and the reference is not renamed.  A zero
    [alpha_norm] is not set on the attenuation model. *)
Theorem attenuation_is_read_from_the_file_first :
  forall (env : Environment) (config : Target) (c : SkyModelComponent)
         (rest : list SkyModelComponent) (model1 : SpectralModel),
    let ebl_model := ebl_abs (spectral c) in
    let alpha_norm :=
      if (ebl_alpha_norm ebl_model =? 0)%float then None
      else Some (ebl_alpha_norm ebl_model) in
    components config = c :: rest ->
    ebl_reference ebl_model <> "" ->
    spectral_from_config env (spectral c) = Ok model1 ->
    spatial_type (spatial c) = "" ->
    (is_file env (ebl_filename ebl_model) = true ->
     ebl_read_error env (ebl_filename ebl_model) = None ->
     read_models_from_asgardpy_config env config =
     (set_reference (reference_of_file (ebl_filename ebl_model)) config,
      Ok (Named (source_name config)
            (CompoundSpectral model1
               (EBLRead (ebl_filename ebl_model) (ebl_redshift ebl_model)
                  alpha_norm)),
          None))) /\
    (is_file env (ebl_filename ebl_model) = false ->
     ebl_builtin_error env (ebl_reference ebl_model) = None ->
     read_models_from_asgardpy_config env config =
     (config,
      Ok (Named (source_name config)
            (CompoundSpectral model1
               (EBLBuiltin (ebl_reference ebl_model) (ebl_redshift ebl_model)
                  alpha_norm)),
          None))) /\
    (forall e,
       is_file env (ebl_filename ebl_model) = true ->
       ebl_read_error env (ebl_filename ebl_model) = Some e ->
       read_models_from_asgardpy_config env config = (config, Raise e)).
Proof.
  intros env config c rest model1 ebl_model alpha_norm Hc Href Hm Hspatial.
  rewrite (read_models_from_asgardpy_config_steps env config c rest Hc).
  fold ebl_model. apply String.eqb_neq in Href. rewrite Href, Hspatial, Hm.
  cbn [negb String.eqb].
  unfold bind, lift, ret, read_ebl, check, read_config, write_config.
  split; [|split].
  - intros Hfile Hread. rewrite Hfile, Hread. subst alpha_norm.
    destruct (ebl_alpha_norm ebl_model =? 0)%float; reflexivity.
  - intros Hfile Hread. rewrite Hfile, Hread. subst alpha_norm.
    destruct (ebl_alpha_norm ebl_model =? 0)%float; reflexivity.
  - intros e Hfile Hread. rewrite Hfile, Hread. reflexivity.
Qed.

Lemma attenuation_is_read_from_the_file_first_witness :
  read_models_from_asgardpy_config Examples.env
    (Examples.target MoreExamples.ebl_file_unknown_reference false)
  = (set_reference "my_model"
       (Examples.target MoreExamples.ebl_file_unknown_reference false),
     Ok (Named "4FGL J0534.5+2201i"
           (CompoundSpectral
              (SpectralFromDict "LogParabolaSpectralModel"
                 {| d_type := "LogParabolaSpectralModel";
                    d_parameters := [Examples.amplitude_config] |})
              (EBLRead "ebl/my-model.fits.gz" 0.4 None)),
         None)) /\
  ebl_builtin_error Examples.env
    (ebl_reference MoreExamples.ebl_file_unknown_reference) = Some KeyError.
Proof.
  split; [|reflexivity].
  apply (attenuation_is_read_from_the_file_first Examples.env
           (Examples.target MoreExamples.ebl_file_unknown_reference false)
           (Examples.component MoreExamples.ebl_file_unknown_reference) []
           (SpectralFromDict "LogParabolaSpectralModel"
              {| d_type := "LogParabolaSpectralModel";
                 d_parameters := [Examples.amplitude_config] |}));
    try reflexivity.
  discriminate.
Defined.

(** *** What is written to the configuration *)

Lemma set_reference_components (r : string) (config : Target)
  (c : SkyModelComponent) (rest : list SkyModelComponent) :
  components config = c :: rest ->
  exists c',
    components (set_reference r config) = c' :: rest /\
    ebl_filename (ebl_abs (spectral c')) = ebl_filename (ebl_abs (spectral c)) /\
    ebl_reference (ebl_abs (spectral c')) = r /\
    spectral_type (spectral c') = spectral_type (spectral c) /\
    spectral_parameters (spectral c') = spectral_parameters (spectral c) /\
    source_name (set_reference r config) = source_name config.
Proof.
  intros Hc. unfold set_reference. rewrite Hc. eexists.
  repeat split.
Qed.

(** A configuration renamed once is not renamed again. *)
Lemma reference_renamed_once (env : Environment)
  (config config1 config2 : Target) :
  reference_renamed env config config1 ->
  reference_renamed env config1 config2 ->
  config1 = config \/ config2 = config1.
Proof.
  intros [->|(c & rest & Hc & Hfile & ->)] H2; [now left|]. right.
  destruct H2 as [->|(c1 & rest1 & Hc1 & _ & ->)]; [reflexivity|].
  destruct (set_reference_components
              (reference_of_file (ebl_filename (ebl_abs (spectral c))))
              config c rest Hc) as (c' & Hc' & Hf & _).
  rewrite Hc' in Hc1. injection Hc1 as <- _.
  rewrite Hf. apply set_reference_twice.
Qed.

(** X12: the configuration is written at most once: after a first call of
    [read_models_from_asgardpy_config] or of [create_source_skymodel],
    returned or raised, a second call with the same arguments leaves the
    configuration as the first call left it. *)
Theorem configuration_is_written_at_most_once :
  forall (env : Environment) (source : Source) (aux_path : Path)
         (config config1 config2 : Target),
    (forall r1 r2,
       read_models_from_asgardpy_config env config = (config1, r1) ->
       read_models_from_asgardpy_config env config1 = (config2, r2) ->
       config2 = config1) /\
    (forall r1 r2,
       create_source_skymodel env source aux_path config = (config1, r1) ->
       create_source_skymodel env source aux_path config1 = (config2, r2) ->
       config2 = config1).
Proof.
  intros env source aux_path config config1 config2. split.
  - intros r1 r2 H1 H2.
    destruct (reference_renamed_once env config config1 config2) as [E|E].
    + eapply read_models_from_asgardpy_config_config; eauto.
    + eapply read_models_from_asgardpy_config_config; eauto.
    + subst config1. rewrite H1 in H2. now injection H2.
    + exact E.
  - intros r1 r2 H1 H2.
    destruct (reference_renamed_once env config config1 config2) as [E|E].
    + eapply create_source_skymodel_config; eauto.
    + eapply create_source_skymodel_config; eauto.
    + subst config1. rewrite H1 in H2. now injection H2.
    + exact E.
Qed.

Lemma configuration_is_written_at_most_once_witness :
  fst (read_models_from_asgardpy_config Examples.env
         (Examples.target Examples.ebl_file_block false))
  = Examples.target Examples.ebl_renamed_block false /\
  fst (read_models_from_asgardpy_config Examples.env
         (Examples.target Examples.ebl_renamed_block false))
  = Examples.target Examples.ebl_renamed_block false.
Proof.
  split; [reflexivity|].
  apply (proj1 (configuration_is_written_at_most_once Examples.env
                  (Examples.crab "LogParabola") "aux"
                  (Examples.target Examples.ebl_file_block false)
                  (Examples.target Examples.ebl_renamed_block false)
                  (fst (read_models_from_asgardpy_config Examples.env
                          (Examples.target Examples.ebl_renamed_block false))))
           (snd (read_models_from_asgardpy_config Examples.env
                   (Examples.target Examples.ebl_file_block false)))
           (snd (read_models_from_asgardpy_config Examples.env
                   (Examples.target Examples.ebl_renamed_block false))));
    reflexivity.
Defined.

(** X13: for an entry that is not the target the configuration is only
    read: whatever the call returns or raises, the configuration is as it
    was. *)
Theorem other_sources_leave_the_configuration :
  forall (env : Environment) (source : Source) (aux_path : Path)
         (config config' : Target) (r : Result (SkyModel * bool)),
    name_check (src_name source) <> name_check (source_name config) ->
    create_source_skymodel env source aux_path config = (config', r) ->
    config' = config.
Proof.
  intros env source aux_path config config' r Hne H.
  apply String.eqb_neq in Hne.
  unfold create_source_skymodel in H.
  unfold bind at 1 in H. unfold read_config in H. cbn beta iota zeta in H.
  rewrite Hne in H. cbn [andb] in H.
  eapply pure_run; [|exact H]. show_pure.
Qed.

Lemma other_sources_leave_the_configuration_witness :
  name_check (src_name (Examples.neighbour "LogParabola"))
    <> name_check (source_name (Examples.target Examples.ebl_file_block true))
  /\
  fst (create_source_skymodel Examples.env (Examples.neighbour "LogParabola")
         "aux" (Examples.target Examples.ebl_file_block true))
  = Examples.target Examples.ebl_file_block true.
Proof.
  assert (Hne : name_check (src_name (Examples.neighbour "LogParabola"))
                <> name_check
                     (source_name (Examples.target Examples.ebl_file_block true)))
    by discriminate.
  split; [exact Hne|].
  apply (other_sources_leave_the_configuration Examples.env
           (Examples.neighbour "LogParabola") "aux"
           (Examples.target Examples.ebl_file_block true) _
           (snd (create_source_skymodel Examples.env
                   (Examples.neighbour "LogParabola") "aux"
                   (Examples.target Examples.ebl_file_block true))) Hne).
  reflexivity.
Defined.

(** The name [filename.name[:-8]] gives a file whose name has eight
    characters or less. *)
Lemma reference_of_short_name (filename : Path) :
  (String.length (path_name filename) <= 8)%nat ->
  reference_of_file filename = "".
Proof.
  intros H. unfold reference_of_file, drop_last.
  replace (String.length (path_name filename) - 8)%nat with 0%nat by lia.
  destruct (path_name filename); reflexivity.
Qed.

(** Without a reference the spectral model returned is that of the
    configuration alone. *)
Lemma read_models_without_reference (env : Environment) (config config' : Target)
  (c : SkyModelComponent) (rest : list SkyModelComponent)
  (spectral_model : SpectralModel) (spatial_model : option SpatialModel) :
  components config = c :: rest ->
  ebl_reference (ebl_abs (spectral c)) = "" ->
  read_models_from_asgardpy_config env config
    = (config', Ok (spectral_model, spatial_model)) ->
  spectral_model =
  Named (source_name config)
    (SpectralFromDict (spectral_type (spectral c))
       (config_to_dict (OfSpectral (spectral c)))).
Proof.
  intros Hc Href H.
  rewrite (read_models_from_asgardpy_config_steps env config c rest Hc) in H.
  rewrite Href in H. cbn [String.eqb negb] in H.
  apply bind_inv in H.
  destruct H as [(e & _ & He)|(m & c1 & Hm & H)]; [discriminate He|].
  unfold lift in Hm. injection Hm as <- Hm.
  apply spectral_from_config_shape in Hm. subst m.
  apply bind_inv in H.
  destruct H as [(e & _ & He)|(sp' & c2 & _ & H)]; [discriminate He|].
  unfold ret in H. injection H as _ <- _. reflexivity.
Qed.

(** With a reference and a custom file, a call that returns has renamed
    the reference after the file. *)
Lemma read_models_with_file (env : Environment) (config config' : Target)
  (c : SkyModelComponent) (rest : list SkyModelComponent)
  (out : SpectralModel * option SpatialModel) :
  components config = c :: rest ->
  ebl_reference (ebl_abs (spectral c)) <> "" ->
  is_file env (ebl_filename (ebl_abs (spectral c))) = true ->
  read_models_from_asgardpy_config env config = (config', Ok out) ->
  config' =
  set_reference (reference_of_file (ebl_filename (ebl_abs (spectral c)))) config.
Proof.
  intros Hc Href Hfile H.
  rewrite (read_models_from_asgardpy_config_steps env config c rest Hc) in H.
  apply String.eqb_neq in Href. rewrite Href in H. cbn [negb] in H.
  apply bind_inv in H.
  destruct H as [(e & _ & He)|(sm & c1 & Hsm & H)]; [discriminate He|].
  apply pure_run in H; [|show_pure]. subst config'.
  apply bind_inv in Hsm.
  destruct Hsm as [(e & _ & He)|(model1 & c2 & Hm & Hsm)]; [discriminate He|].
  unfold lift in Hm. injection Hm as <- _.
  apply bind_inv in Hsm.
  destruct Hsm as [(e & _ & He)|(model2 & c3 & Hebl & Hret)];
    [discriminate He|].
  unfold ret in Hret. injection Hret as <- _.
  unfold read_ebl in Hebl. rewrite Hfile in Hebl.
  unfold bind, lift, check, read_config, write_config, ret in Hebl.
  destruct (ebl_read_error env _); [discriminate Hebl|].
  now injection Hebl as <- _.
Qed.

(** X14: a custom EBL file whose name has eight characters or less blanks
    the reference: after a call that returned, the reference of the
    configuration is empty, and the next call builds the spectral model of
    the configuration without attenuation. *)
Theorem short_file_name_drops_the_attenuation :
  forall (env : Environment) (config config1 : Target) (c : SkyModelComponent)
         (rest : list SkyModelComponent)
         (out : SpectralModel * option SpatialModel),
    components config = c :: rest ->
    ebl_reference (ebl_abs (spectral c)) <> "" ->
    is_file env (ebl_filename (ebl_abs (spectral c))) = true ->
    (String.length (path_name (ebl_filename (ebl_abs (spectral c)))) <= 8)%nat ->
    read_models_from_asgardpy_config env config = (config1, Ok out) ->
    config1 = set_reference "" config /\
    forall config2 spectral_model spatial_model,
      read_models_from_asgardpy_config env config1
        = (config2, Ok (spectral_model, spatial_model)) ->
      spectral_model =
      Named (source_name config)
        (SpectralFromDict (spectral_type (spectral c))
           (config_to_dict (OfSpectral (spectral c)))).
Proof.
  intros env config config1 c rest out Hc Href Hfile Hshort H1.
  apply (read_models_with_file env config config1 c rest out Hc Href Hfile)
    in H1.
  rewrite (reference_of_short_name _ Hshort) in H1. subst config1.
  split; [reflexivity|].
  intros config2 sm sp H2.
  destruct (set_reference_components "" config c rest Hc)
    as (c' & Hc' & _ & Hr & Ht & Hp & Hn).
  apply (read_models_without_reference env _ _ c' rest sm sp Hc' Hr) in H2.
  rewrite H2, Hn. unfold config_to_dict. rewrite Ht, Hp. reflexivity.
Qed.

Lemma short_file_name_drops_the_attenuation_witness :
  (String.length (path_name (ebl_filename MoreExamples.ebl_short_file)) <= 8)%nat
  /\
  fst (read_models_from_asgardpy_config MoreExamples.env_short
         (Examples.target MoreExamples.ebl_short_file false))
  = set_reference "" (Examples.target MoreExamples.ebl_short_file false) /\
  snd (read_models_from_asgardpy_config MoreExamples.env_short
         (set_reference "" (Examples.target MoreExamples.ebl_short_file false)))
  = Ok (Named "4FGL J0534.5+2201i"
          (SpectralFromDict "LogParabolaSpectralModel"
             {| d_type := "LogParabolaSpectralModel";
                d_parameters := [Examples.amplitude_config] |}),
        None).
Proof.
  assert (Hshort :
    (String.length (path_name (ebl_filename MoreExamples.ebl_short_file)) <= 8)%nat)
    by (vm_compute; repeat constructor).
  split; [exact Hshort|].
  destruct (short_file_name_drops_the_attenuation MoreExamples.env_short
              (Examples.target MoreExamples.ebl_short_file false)
              (fst (read_models_from_asgardpy_config MoreExamples.env_short
                      (Examples.target MoreExamples.ebl_short_file false)))
              (Examples.component MoreExamples.ebl_short_file) []
              (Named "4FGL J0534.5+2201i"
                 (CompoundSpectral
                    (SpectralFromDict "LogParabolaSpectralModel"
                       {| d_type := "LogParabolaSpectralModel";
                          d_parameters := [Examples.amplitude_config] |})
                    (EBLRead "ebl.fits" 0.4 (Some 1%float))), None)
              eq_refl) as [H1 H2];
    [discriminate | reflexivity | exact Hshort | reflexivity |].
  split; [exact H1|]. reflexivity.
Defined.

(** X15: the sky model returned carries the name of the configuration when
    the entry is the target, however the catalog spells it, and the name
    of the catalog otherwise; either way its name is that of the entry up
    to underscores and spaces, and it is bound to no dataset yet. *)
Theorem sky_model_is_named_after_the_entry :
  forall (env : Environment) (source : Source) (aux_path : Path)
         (config config' : Target) (model : SkyModel) (is_target : bool),
    create_source_skymodel env source aux_path config
      = (config', Ok (model, is_target)) ->
    sky_name model =
      (if is_target then source_name config else src_name source) /\
    name_check (sky_name model) = name_check (src_name source) /\
    sky_datasets_names model = None.
Proof.
  intros env source aux_path config config' model is_target H.
  unfold create_source_skymodel in H.
  unfold bind at 1 in H. unfold read_config in H. cbn beta iota zeta in H.
  apply bind_inv in H.
  destruct H as [(e & _ & He)|(sm & c1 & _ & H)]; [discriminate He|].
  apply bind_inv in H.
  destruct H as [(e & _ & He)|(sm' & c2 & _ & H)]; [discriminate He|].
  apply bind_inv in H.
  destruct H as [(e & _ & He)|(sp & c3 & _ & H)]; [discriminate He|].
  unfold ret in H. injection H as _ <- <-. cbn [sky_name sky_datasets_names].
  split; [reflexivity|]. split; [|reflexivity].
  destruct (String.eqb_spec (name_check (src_name source))
              (name_check (source_name config))) as [E|_];
    [now rewrite E | reflexivity].
Qed.

Lemma sky_model_is_named_after_the_entry_witness :
  exists model,
    create_source_skymodel Examples.env (Examples.crab "LogParabola") "aux"
      (Examples.target Examples.ebl_builtin_block false)
    = (Examples.target Examples.ebl_builtin_block false, Ok (model, true)) /\
    src_name (Examples.crab "LogParabola") = "4FGL_J0534.5+2201i" /\
    sky_name model = "4FGL J0534.5+2201i" /\
    sky_datasets_names model = None.
Proof.
  eexists. split; [vm_compute; reflexivity|]. split; [reflexivity|].
  destruct (sky_model_is_named_after_the_entry Examples.env
              (Examples.crab "LogParabola") "aux"
              (Examples.target Examples.ebl_builtin_block false)
              _ _ true eq_refl) as (Hn & _ & Hd).
  split; [exact Hn | exact Hd].
Defined.

(** *** The spectrum of the catalog *)

(** One pass of the loop, with the tags it needs registered. *)
Lemma choose_class_registered (env : Environment)
  (spectrum_type raw_type : string) (acc : option string * bool)
  (spec : XmlPar) :
  str_in (spectrum_type_final spectrum_type) (spectral_registry env) = true ->
  str_in (class_tag spectrum_type raw_type) (spectral_registry env) = true ->
  choose_class env spectrum_type raw_type acc spec =
  Ok (if is_source_parameter spec
      then (Some (class_tag spectrum_type raw_type),
            if String.eqb spectrum_type "LogParabola"
            then contains "EblAtten" raw_type || snd acc
            else snd acc)
      else acc).
Proof.
  intros Hfinal Hclass.
  unfold choose_class, is_source_parameter.
  destruct (negb (str_in (x_name spec) ["GalDiffModel"; "IsoDiffModel"]));
    [|reflexivity].
  fold (spectrum_type_final spectrum_type).
  unfold get_cls. rewrite Hfinal. cbn [rbind].
  unfold class_tag in *.
  destruct (String.eqb spectrum_type "LogParabola").
  - destruct (contains "EblAtten" raw_type); rewrite Hclass; reflexivity.
  - reflexivity.
Qed.

Lemma ebl_atten_pl_after_a_pass (spectrum_type raw_type : string)
  (flag : bool) :
  (flag = true -> attenuated_log_parabola spectrum_type raw_type = true) ->
  (if String.eqb spectrum_type "LogParabola"
   then contains "EblAtten" raw_type || flag
   else flag) = attenuated_log_parabola spectrum_type raw_type.
Proof.
  unfold attenuated_log_parabola.
  destruct (String.eqb spectrum_type "LogParabola"),
    (contains "EblAtten" raw_type), flag; cbn; intros H;
    try reflexivity; specialize (H eq_refl); discriminate H.
Qed.

Lemma fold_choose_class_registered (env : Environment)
  (spectrum_type raw_type : string) (spectrum : list XmlPar) :
  str_in (spectrum_type_final spectrum_type) (spectral_registry env) = true ->
  str_in (class_tag spectrum_type raw_type) (spectral_registry env) = true ->
  forall acc,
    (snd acc = true -> attenuated_log_parabola spectrum_type raw_type = true) ->
    fold_result (choose_class env spectrum_type raw_type) spectrum acc =
    Ok (if existsb is_source_parameter spectrum
        then (Some (class_tag spectrum_type raw_type),
              attenuated_log_parabola spectrum_type raw_type)
        else acc).
Proof.
  intros Hfinal Hclass.
  induction spectrum as [|spec spectrum IH]; intros acc Hacc; [reflexivity|].
  cbn [fold_result existsb].
  rewrite choose_class_registered by assumption. cbn [rbind].
  destruct (is_source_parameter spec); cbn [orb]; [|now apply IH].
  rewrite ebl_atten_pl_after_a_pass by assumption.
  rewrite IH by (intros H; exact H).
  destruct (existsb is_source_parameter spectrum); reflexivity.
Qed.

Lemma fold_choose_class_unregistered (env : Environment)
  (spectrum_type raw_type : string) (spectrum : list XmlPar) :
  str_in (spectrum_type_final spectrum_type) (spectral_registry env) = false ->
  existsb is_source_parameter spectrum = true ->
  forall acc,
    fold_result (choose_class env spectrum_type raw_type) spectrum acc
    = Raise KeyError.
Proof.
  intros Hfinal.
  induction spectrum as [|spec spectrum IH]; intros Hex acc; [discriminate|].
  cbn [fold_result existsb] in *.
  unfold choose_class at 1. fold (is_source_parameter spec).
  fold (spectrum_type_final spectrum_type).
  destruct (is_source_parameter spec).
  - unfold get_cls. rewrite Hfinal. reflexivity.
  - cbn [rbind]. now apply IH.
Qed.

(** X16: the spectral model of the catalog, for a spectrum with a
    parameter to build a model for.  The family is what follows the marker
    "EblAtten::" in the type; its class is ExpCutoffPowerLawSpectralModel
    for PLSuperExpCutoff and PLSuperExpCutoff2,
    SuperExpCutoffPowerLaw4FGLDR3SpectralModel for PLSuperExpCutoff4,
    PowerLawSpectralModel for an attenuated LogParabola, and the family
    followed by "SpectralModel" otherwise; the signs are kept for the
    attenuated LogParabola only.  A family whose tag is not registered
    raises [KeyError]. *)
Theorem class_of_the_catalog_spectrum :
  forall (env : Environment) (source : Source) (is_target : bool),
    let raw_type := src_spectrum_type source in
    let spectrum_type := split_last "EblAtten::" raw_type in
    existsb is_source_parameter (src_spectrum source) = true ->
    (str_in (spectrum_type_final spectrum_type) (spectral_registry env) = true ->
     str_in (class_tag spectrum_type raw_type) (spectral_registry env) = true ->
     catalog_spectral_model env source is_target =
     try ps := xml_spectral_model_to_gammapy_params (src_spectrum source)
                 spectrum_type is_target
                 (attenuated_log_parabola spectrum_type raw_type) in
     Ok (Some (SpectralFromParams (class_tag spectrum_type raw_type) ps))) /\
    (str_in (spectrum_type_final spectrum_type) (spectral_registry env) = false ->
     catalog_spectral_model env source is_target = Raise KeyError).
Proof.
  intros env source is_target raw_type spectrum_type Hex. split.
  - intros Hfinal Hclass. unfold catalog_spectral_model.
    fold raw_type. fold spectrum_type.
    rewrite fold_choose_class_registered by (assumption || discriminate).
    rewrite Hex. cbn [rbind fst snd].
    destruct (xml_spectral_model_to_gammapy_params _ _ _ _); reflexivity.
  - intros Hfinal. unfold catalog_spectral_model.
    fold raw_type. fold spectrum_type.
    rewrite fold_choose_class_unregistered by assumption. reflexivity.
Qed.

Lemma class_of_the_catalog_spectrum_witness :
  (exists ps,
     catalog_spectral_model Examples.env
       (Examples.crab "EblAtten::PLSuperExpCutoff2") false
     = Ok (Some (SpectralFromParams "ExpCutoffPowerLawSpectralModel" ps))) /\
  catalog_spectral_model Examples.env (Examples.crab "Gaussian") false
  = Raise KeyError.
Proof.
  split.
  - destruct (class_of_the_catalog_spectrum Examples.env
                (Examples.crab "EblAtten::PLSuperExpCutoff2") false eq_refl)
      as [H _].
    rewrite (H eq_refl eq_refl). eexists. vm_compute. reflexivity.
  - exact (proj2 (class_of_the_catalog_spectrum Examples.env
                    (Examples.crab "Gaussian") false eq_refl) eq_refl).
Defined.

(** *** The marker of an attenuated spectrum *)

Lemma string_app_cons (c : ascii) (s t : string) :
  (String c s ++ t)%string = String c (s ++ t)%string.
Proof. reflexivity. Qed.

Lemma string_app_nil_r (s : string) : (s ++ "")%string = s.
Proof.
  induction s as [|c s IH]; [reflexivity|].
  now rewrite string_app_cons, IH.
Qed.

Lemma string_app_assoc (a b c : string) :
  ((a ++ b) ++ c)%string = (a ++ (b ++ c))%string.
Proof.
  induction a as [|x a IH]; [reflexivity|].
  now rewrite !string_app_cons, IH.
Qed.

(** A text without the separator is one piece. *)
Lemma split_from_one_piece (sep s cur : string) :
  contains sep s = false -> split_from sep 0 cur s = [(cur ++ s)%string].
Proof.
  revert cur. induction s as [|c s IH]; intros cur H.
  - cbn [split_from]. now rewrite string_app_nil_r.
  - cbn [contains] in H. apply orb_false_iff in H. destruct H as [Hp Hc].
    cbn [split_from]. rewrite Hp, (IH _ Hc), string_app_assoc. reflexivity.
Qed.

Lemma prefix_app (sep s : string) : String.prefix sep (sep ++ s) = true.
Proof.
  induction sep as [|c sep IH]; [now destruct s|].
  rewrite string_app_cons. cbn [String.prefix].
  destruct (ascii_dec c c); [exact IH | congruence].
Qed.

(** The characters of a separator just matched are passed over. *)
Lemma split_from_skip (sep pre s cur : string) :
  split_from sep (String.length pre) cur (pre ++ s) = split_from sep 0 cur s.
Proof.
  induction pre as [|c pre IH]; [reflexivity|].
  rewrite string_app_cons. cbn [split_from String.length]. exact IH.
Qed.

(** A text that starts with the separator: the piece read so far ends. *)
Lemma split_from_separator (c : ascii) (sep s cur : string) :
  split_from (String c sep) 0 cur (String c sep ++ s)
  = cur :: split_from (String c sep) 0 "" s.
Proof.
  pose proof (prefix_app (String c sep) s) as Hp.
  rewrite string_app_cons in *. cbn [split_from]. rewrite Hp.
  cbn [String.length]. rewrite Nat.sub_1_r. cbn [Nat.pred].
  now rewrite split_from_skip.
Qed.

(** X17: the family of a catalog spectrum is read after the marker: a
    type "EblAtten::" followed by a family, and the family alone, give the
    same family, as long as the family does not hold the marker itself. *)
Theorem family_follows_the_marker :
  forall (family : string),
    contains "EblAtten::" family = false ->
    split_last "EblAtten::" ("EblAtten::" ++ family) = family /\
    split_last "EblAtten::" family = family.
Proof.
  intros family H. unfold split_last, split. split.
  - rewrite split_from_separator, (split_from_one_piece _ _ _ H). reflexivity.
  - rewrite (split_from_one_piece _ _ _ H). reflexivity.
Qed.

Lemma family_follows_the_marker_witness :
  contains "EblAtten::" "PowerLaw2" = false /\
  split_last "EblAtten::" "EblAtten::PowerLaw2" = "PowerLaw2".
Proof.
  split; [reflexivity|].
  exact (proj1 (family_follows_the_marker "PowerLaw2" eq_refl)).
Defined.

(** *** The names compared *)

Lemma remove_char_app (c : ascii) (a b : string) :
  remove_char c (a ++ b) = (remove_char c a ++ remove_char c b)%string.
Proof.
  induction a as [|d a IH]; [reflexivity|].
  rewrite string_app_cons. cbn [remove_char].
  destruct (Ascii.eqb d c); [exact IH|].
  now rewrite string_app_cons, IH.
Qed.

Lemma remove_char_twice (c d : ascii) (s : string) :
  remove_char c (remove_char d (remove_char c s)) = remove_char d (remove_char c s).
Proof.
  induction s as [|x s IH]; [reflexivity|].
  cbn [remove_char]. destruct (Ascii.eqb x c) eqn:Ec; [exact IH|].
  cbn [remove_char]. destruct (Ascii.eqb x d); [exact IH|].
  cbn [remove_char]. now rewrite Ec, IH.
Qed.

Lemma remove_char_again (c : ascii) (s : string) :
  remove_char c (remove_char c s) = remove_char c s.
Proof.
  induction s as [|x s IH]; [reflexivity|].
  cbn [remove_char]. destruct (Ascii.eqb x c) eqn:Ec; [exact IH|].
  cbn [remove_char]. now rewrite Ec, IH.
Qed.

Lemma name_check_app (a b : string) :
  name_check (a ++ b) = (name_check a ++ name_check b)%string.
Proof. unfold name_check. now rewrite !remove_char_app. Qed.

(** X18: the comparison of the names does not see underscores and spaces:
    an underscore or a space put anywhere in a name leaves the name that
    is compared as it was, and a name that was cleaned is not changed by a
    second cleaning. *)
Theorem separators_are_not_compared :
  forall (a b : string),
    name_check (a ++ "_" ++ b) = name_check (a ++ b) /\
    name_check (a ++ " " ++ b) = name_check (a ++ b) /\
    name_check (name_check a) = name_check a.
Proof.
  intros a b. split; [|split].
  - now rewrite !name_check_app.
  - now rewrite !name_check_app.
  - unfold name_check.
    now rewrite (remove_char_twice "_" " "), remove_char_again.
Qed.

(** * Further properties of the spatial models *)

(** *** The template of a diffuse source *)

Lemma string_app_nil_l (s : string) : ("" ++ s)%string = s.
Proof. reflexivity. Qed.

Lemma split_from_not_nil (sep : string) (s : string) :
  forall (skip : nat) (cur : string), split_from sep skip cur s <> [].
Proof.
  induction s as [|c s IH]; intros skip cur; [discriminate|].
  cbn [split_from]. destruct skip as [|k]; [|apply IH].
  destruct (String.prefix sep (String c s)); [discriminate | apply IH].
Qed.

Lemma last_after (x : string) (l : list string) :
  l <> [] -> List.last (x :: l) "" = List.last l "".
Proof. destruct l as [|y l]; [contradiction | reflexivity]. Qed.

(** What follows the last slash does not depend on what comes before. *)
Lemma split_last_after_slash (pre s : string) :
  split_last "/" (pre ++ "/" ++ s) = split_last "/" s.
Proof.
  unfold split_last, split.
  enough (H : forall cur,
            List.last (split_from "/" 0 cur (pre ++ "/" ++ s)) ""
            = List.last (split_from "/" 0 "" s) "") by apply H.
  induction pre as [|d pre IH]; intros cur.
  - rewrite string_app_nil_l.
    pose proof (prefix_app "/" s) as Hp.
    rewrite string_app_cons, string_app_nil_l in *.
    cbn [split_from]. rewrite Hp.
    change (String.length "/" - 1)%nat with 0%nat.
    apply last_after, split_from_not_nil.
  - rewrite string_app_cons. cbn [split_from].
    destruct (String.prefix "/" (String d (pre ++ "/" ++ s))).
    + change (String.length "/" - 1)%nat with 0%nat.
      rewrite last_after by apply split_from_not_nil. apply IH.
    + apply IH.
Qed.

Lemma split_last_one_piece (sep s : string) :
  contains sep s = false -> split_last sep s = s.
Proof.
  intros H. unfold split_last, split.
  now rewrite (split_from_one_piece _ _ _ H).
Qed.

(** X19: the template of a diffuse source is looked for under its base
    name in the directory Templates of the auxiliary files, whatever
    directory the catalog gives: the model is built on the map read there,
    and an error of the reading is the error of the call. *)
Theorem template_is_found_by_its_base_name :
  forall (env : Environment) (aux_path : Path) (dir base : string)
         (spatial_pars : list XmlSpatialPar),
    contains "/" base = false ->
    let block :=
      {| xsm_type := "SpatialMap"; xsm_file := Some (dir ++ "/" ++ base)%string;
         xsm_parameter := spatial_pars |} in
    let file_path := (aux_path ++ "/Templates/" ++ base)%string in
    (map_read_error env file_path = None ->
     str_in "TemplateSpatialModel" (spatial_registry env) = true ->
     xml_spatial_model_to_gammapy env aux_path block
       = Ok (TemplateFromMap file_path)) /\
    (forall e,
       map_read_error env file_path = Some e ->
       xml_spatial_model_to_gammapy env aux_path block = Raise e).
Proof.
  intros env aux_path dir base spatial_pars Hbase block file_path.
  assert (Hpath :
    path_join aux_path ("Templates/" ++ split_last "/" (dir ++ "/" ++ base))
    = file_path).
  { rewrite split_last_after_slash, (split_last_one_piece _ _ Hbase).
    reflexivity. }
  unfold xml_spatial_model_to_gammapy, block.
  cbn [xsm_type xsm_file xsm_parameter].
  change (String.eqb "SpatialMap" "SkyDirFunction") with false.
  change (String.eqb "SpatialMap" "SpatialMap") with true.
  cbn iota zeta. rewrite Hpath.
  split.
  - intros Hread Htag. rewrite Hread. cbn [check rbind].
    unfold get_cls. now rewrite Htag.
  - intros e Hread. now rewrite Hread.
Qed.

Lemma template_is_found_by_its_base_name_witness :
  contains "/" "LMC-Galaxy.fits" = false /\
  xml_spatial_model_to_gammapy BlockExamples.env_maps "aux"
    BlockExamples.map_block
  = Ok (TemplateFromMap "aux/Templates/LMC-Galaxy.fits") /\
  xml_spatial_model_to_gammapy Examples.env "aux" BlockExamples.map_block
  = Raise OSError.
Proof.
  split; [reflexivity|]. split.
  - exact (proj1 (template_is_found_by_its_base_name BlockExamples.env_maps
                    "aux" "$(LATEXTDIR)/Templates" "LMC-Galaxy.fits"
                    [ {| xs_name := "Prefactor"; xs_value := "1" |} ]
                    eq_refl) eq_refl eq_refl).
  - exact (proj2 (template_is_found_by_its_base_name Examples.env
                    "aux" "$(LATEXTDIR)/Templates" "LMC-Galaxy.fits"
                    [ {| xs_name := "Prefactor"; xs_value := "1" |} ]
                    eq_refl) OSError eq_refl).
Defined.

(** *** The position of a source *)








(** * Further properties of the target taken from the catalog *)



(** * Further properties of the binding *)

Lemma names_of_cons (heap : list SkyModel) (l : loc) (items : list loc)
  (names : list string) :
  names_of heap (l :: items) = Ok names ->
  exists model names',
    heap !! l = Some model /\ names_of heap items = Ok names' /\
    names = sky_name model :: names'.
Proof.
  unfold names_of. cbn [map_result]. intros H.
  destruct (heap !! l) as [model|]; [|discriminate H].
  cbn [rbind] in H. apply rbind_Ok in H. destruct H as (names' & Hn & H).
  apply Ok_inj in H. eauto.
Qed.


Lemma find_by_name_absent (heap : list SkyModel) (key : string)
  (items : list loc) :
  forall names,
    names_of heap items = Ok names -> str_in key names = false ->
    find_by_name heap key items = None.
Proof.
  induction items as [|l items IH]; intros names Hn Hin; [reflexivity|].
  apply names_of_cons in Hn.
  destruct Hn as (model & names' & Hl & Hn & ->).
  unfold str_in in Hin. cbn [existsb] in Hin.
  apply orb_false_iff in Hin. destruct Hin as [Hk Hin].
  cbn [find_by_name]. rewrite Hl, String.eqb_sym, Hk. now apply (IH names').
Qed.

Lemma Models__of_names (heap : list SkyModel) (items : list loc)
  (names : list string) :
  names_of heap items = Ok names ->
  Models_ heap items =
  if unique names
  then Ok {| models_items := items; models_datasets_names := None |}
  else Raise ValueError.
Proof. unfold Models_. now intros ->. Qed.



(** X24: a list where two models have one name, or a list of two models
    or more where none is called as the target, is refused with
    [ValueError], and nothing was written: the datasets, the models and
    the configuration are as they were. *)
Theorem twins_or_unknown_target_bind_nothing :
  forall (env : Environment) (datasets_name_list : option (list string))
         (items : list loc) (target_source_name : option string)
         (w : World) (names : list string),
    let target := or_default target_source_name (source_name (w_config w)) in
    names_of (w_heap w) items = Ok names ->
    unique names = false \/
    ((1 < length items)%nat /\ str_in target names = false) ->
    set_models env datasets_name_list (AList items) target_source_name w
    = (w, Raise ValueError).
Proof.
  intros env datasets_name_list items target_source_name w names target
    Hnames H.
  pose proof (Models__of_names _ _ _ Hnames) as Hms.
  unfold set_models, resolve_models. unfold bind, read_world, lift.
  rewrite Hms.
  destruct (unique names) eqn:Hu; [|reflexivity].
  destruct H as [H|[Hlen Htarget]]; [discriminate H|].
  cbn [models_items]. apply Nat.ltb_lt in Hlen. rewrite Hlen.
  fold target. now rewrite (find_by_name_absent _ _ _ _ Hnames Htarget).
Qed.

Lemma twins_or_unknown_target_bind_nothing_witness :
  set_models Examples.env None (AList [0; 1]%nat) None
    BlockExamples.twin_world
  = (BlockExamples.twin_world, Raise ValueError) /\
  set_models Examples.env None (AList [0; 1]%nat) (Some "Crab")
    (Examples.world (Examples.target Examples.ebl_builtin_block false))
  = (Examples.world (Examples.target Examples.ebl_builtin_block false),
     Raise ValueError).
Proof.
  split.
  - exact (twins_or_unknown_target_bind_nothing Examples.env None [0; 1]%nat
             None BlockExamples.twin_world _ eq_refl (or_introl eq_refl)).
  - exact (twins_or_unknown_target_bind_nothing Examples.env None [0; 1]%nat
             (Some "Crab")
             (Examples.world (Examples.target Examples.ebl_builtin_block false))
             _ eq_refl (or_intror (conj (le_n 2) eq_refl))).
Defined.



